(** * Static asset servers of the pose estimator: header and routing policy

    A shallow embedding of the two development servers of the repository,

      - [src/dev/tools/server.py]  (class [CustomHTTPRequestHandler], "Variant A"),
      - [src/server.py]            (class [PWAHTTPRequestHandler],    "Variant B"),

    together with the part of CPython's [http.server], [posixpath] and
    [pathlib] that the two scripts call into.  Python strings are modelled as
    [string] (byte strings; every literal the scripts compare against is
    ASCII), Python integers as [Z], and a handler object as a record that is
    threaded through a state-and-exception monad. *)

From Stdlib Require Import String Ascii List ZArith Bool Arith Lia DecimalString.
Import ListNotations.

Open Scope string_scope.
Open Scope Z_scope.

(* ================================================================== *)
(** * Python built-ins used by the scripts *)
(* ================================================================== *)

Module Py.

(** ** Objects and exceptions *)

(** Values that cross the boundary between the scripts and the library
    without a static type: what [guess_type] returns and what [send_header]
    is given as a header value. *)
#[warnings="-register-all"]
Inductive pyobj : Type :=
| PNone
| PStr (s : string)
| PTuple (items : list pyobj).

(** The exception classes that occur.  [KeyboardInterrupt] and [SystemExit]
    derive from [BaseException] only; the others derive from [Exception].
    [RuntimeError] stands for any further subclass of [Exception]. *)
Inductive exn : Type :=
| KeyboardInterrupt
| SystemExit (code : Z)
| OSError (errno : Z) (strerror : string)
| ValueError (msg : string)
| TypeError (msg : string)
| RuntimeError (msg : string).

Definition isinstance_KeyboardInterrupt (e : exn) : bool :=
  match e with KeyboardInterrupt => true | _ => false end.

Definition isinstance_OSError (e : exn) : bool :=
  match e with OSError _ _ => true | _ => false end.

Definition isinstance_Exception (e : exn) : bool :=
  match e with
  | KeyboardInterrupt | SystemExit _ => false
  | _ => true
  end.

(** [e.errno == n] for an exception caught as [OSError]. *)
Definition errno_is (e : exn) (n : Z) : bool :=
  match e with
  | OSError errno _ => errno =? n
  | _ => false
  end.

(** [str(n)] for an integer. *)
Definition str_of_int (n : Z) : string := NilZero.string_of_int (Z.to_int n).

(** [str(e)] for an exception: [OSError(errno, strerror)] prints as
    [[Errno errno] strerror], the others print their message. *)
Definition str_of_exn (e : exn) : string :=
  match e with
  | KeyboardInterrupt => ""
  | SystemExit c => str_of_int c
  | OSError n s => "[Errno " ++ str_of_int n ++ "] " ++ s
  | ValueError m | TypeError m | RuntimeError m => m
  end.

(** ** String methods *)

Definition len (s : string) : Z := Z.of_nat (String.length s).

(** [s.endswith(suffix)]: some tail of [s] is [suffix]. *)
Fixpoint endswith (s suffix : string) : bool :=
  (s =? suffix)%string
  || match s with
     | EmptyString => false
     | String _ s' => endswith s' suffix
     end.

(** [s.endswith((x, y, ...))]: the tuple form. *)
Definition endswith_any (s : string) (suffixes : list string) : bool :=
  existsb (endswith s) suffixes.

(** [s.startswith(p)]. *)
Definition startswith (s p : string) : bool := String.prefix p s.

(** [c in s] for a single character. *)
Fixpoint contains (c : ascii) (s : string) : bool :=
  match s with
  | EmptyString => false
  | String a s' => (a =? c)%char || contains c s'
  end.

(** [s.split(c, 1)[0]]: the text before the first [c], the whole of [s]
    when there is none. *)
Fixpoint before_first (c : ascii) (s : string) : string :=
  match s with
  | EmptyString => EmptyString
  | String a s' => if (a =? c)%char then EmptyString
                   else String a (before_first c s')
  end.

(** [s.split(c)] as a non-empty list: the head piece and the others. *)
Fixpoint split_pieces (c : ascii) (s : string) : string * list string :=
  match s with
  | EmptyString => (EmptyString, [])
  | String a s' =>
      let (hd, tl) := split_pieces c s' in
      if (a =? c)%char then (EmptyString, hd :: tl) else (String a hd, tl)
  end.

Definition split (c : ascii) (s : string) : list string :=
  let (hd, tl) := split_pieces c s in hd :: tl.

(** [sep.join(parts)]. *)
Fixpoint join (sep : string) (parts : list string) : string :=
  match parts with
  | [] => ""
  | [x] => x
  | x :: rest => x ++ sep ++ join sep rest
  end.

(** [s.rfind(c)]: index of the last [c], [-1] when there is none. *)
Fixpoint rfind (c : ascii) (s : string) : Z :=
  match s with
  | EmptyString => -1
  | String a s' =>
      let r := rfind c s' in
      if 0 <=? r then r + 1 else if (a =? c)%char then 0 else -1
  end.

(** [s[:i]] for [0 <= i]. *)
Definition slice_to (i : Z) (s : string) : string :=
  String.substring 0 (Z.to_nat i) s.

(** [s.rstrip(c)]. *)
Fixpoint rstrip (c : ascii) (s : string) : string :=
  match s with
  | EmptyString => EmptyString
  | String a s' =>
      match rstrip c s' with
      | EmptyString => if (a =? c)%char then EmptyString else String a EmptyString
      | r => String a r
      end
  end.

(** [s.lstrip(c)]. *)
Fixpoint lstrip (c : ascii) (s : string) : string :=
  match s with
  | EmptyString => EmptyString
  | String a s' => if (a =? c)%char then lstrip c s' else s
  end.

(** [c * n]. *)
Fixpoint times (c : string) (n : nat) : string :=
  match n with
  | O => ""
  | S n' => c ++ times c n'
  end.

(** ** Sequence unpacking: [a, b = obj] *)

(** Iterating a [str] yields its characters as one-character strings. *)
Fixpoint chars (s : string) : list pyobj :=
  match s with
  | EmptyString => []
  | String a s' => PStr (String a EmptyString) :: chars s'
  end.

Definition unpack_items (items : list pyobj) : exn + (pyobj * pyobj) :=
  match items with
  | [a; b] => inr (a, b)
  | _ :: _ :: _ :: _ => inl (ValueError "too many values to unpack (expected 2)")
  | short =>
      inl (ValueError ("not enough values to unpack (expected 2, got "
                       ++ str_of_int (Z.of_nat (List.length short)) ++ ")"))
  end.

Definition unpack2 (o : pyobj) : exn + (pyobj * pyobj) :=
  match o with
  | PNone => inl (TypeError "cannot unpack non-iterable NoneType object")
  | PStr s => unpack_items (chars s)
  | PTuple items => unpack_items items
  end.

End Py.

(* ================================================================== *)
(** * [posixpath] and [pathlib]: the path functions of the start-up code *)
(* ================================================================== *)

Module Posixpath.
Import Py.

(** [posixpath.join(a, b)]. *)
Definition join (a b : string) : string :=
  if startswith b "/" then b
  else if (a =? "")%string || endswith a "/" then a ++ b
  else a ++ "/" ++ b.

(** [posixpath.dirname(p)]:
<<
    i = p.rfind('/') + 1
    head = p[:i]
    if head and head != '/'*len(head):
        head = head.rstrip('/')
    return head
>> *)
Definition dirname (p : string) : string :=
  let i := rfind "/" p + 1 in
  let head := slice_to i p in
  if negb (head =? "")%string
     && negb (head =? times "/" (String.length head))%string
  then rstrip "/" head
  else head.

End Posixpath.

Module Pathlib.
Import Py.

(** A [PurePosixPath]: its root ([""], ["/"] or ["//"]) and the names below
    the root. *)
Record PurePath : Type := mkpath { root : string; names : list string }.

(** [_PosixFlavour.splitroot]: the root and the rest. *)
Definition splitroot (part : string) : string * string :=
  if startswith part "/" then
    let stripped := lstrip "/" part in
    if (len part - len stripped =? 2) then ("//", stripped) else ("/", stripped)
  else ("", part).

(** [Path(s)]: empty and [.] components are dropped. *)
Definition Path (s : string) : PurePath :=
  let (rt, rel) := splitroot s in
  mkpath rt (filter (fun x => negb (x =? "")%string && negb (x =? ".")%string)
                    (split "/" rel)).

(** [p.parent]: a path without names is its own parent. *)
Definition parent (p : PurePath) : PurePath :=
  match names p with
  | [] => p
  | _ => mkpath (root p) (removelast (names p))
  end.

(** [str(p)], which is also [os.fspath(p)]. *)
Definition fspath (p : PurePath) : string :=
  let s := (root p ++ Py.join "/" (names p))%string in
  if (s =? "")%string then "." else s.

End Pathlib.

(* ================================================================== *)
(** * The file-serving primitive: CPython's [http.server] *)
(* ================================================================== *)

(** The scripts subclass [http.server.SimpleHTTPRequestHandler].  This
    module embeds the methods of that class (and of its base class
    [BaseHTTPRequestHandler]) that take part in answering one HTTP/1.x
    request.  Methods a subclass may override are reached through a record
    of bound methods, [methods], so that a call such as [self.end_headers()]
    inside the library dispatches to the subclass. *)

Module HttpServer.
Import Py.

(** An open file: its bytes and the modification time [fstat] reports. *)
Record file : Type := mkfile { f_data : string; f_mtime : Z }.

(** What the operating system and the rest of the standard library
    contribute.  Nothing here is code of the repository. *)
Class World : Type := {
  (** [os.path.isdir], [os.path.isfile] *)
  isdir : string -> bool;
  isfile : string -> bool;
  (** [open(path, 'rb')]; [None] when it raises [OSError] *)
  open_rb : string -> option file;
  (** [os.listdir]; [None] when it raises [OSError] *)
  listdir : string -> option (list string);
  (** [translate_path] after the query and the fragment are cut off:
      unquoting, [posixpath.normpath] and the join with the served
      directory *)
  translate_tail : string -> string;
  (** [urllib.parse.urlsplit(p).path] *)
  urlsplit_path : string -> string;
  (** the [Location] of the redirect for a directory without a slash *)
  redirect_location : string -> string;
  (** [SimpleHTTPRequestHandler.guess_type]: the generic lookup from a file
      name to a MIME type.  In CPython it returns a [str]. *)
  generic_guess_type : string -> pyobj;
  (** the comparison of [If-Modified-Since] with the file's time *)
  not_modified : list (string * string) -> file -> bool;
  (** the table [BaseHTTPRequestHandler.responses] *)
  responses : Z -> option (string * string);
  (** the HTML page of [send_error], from code, message and explanation *)
  error_body : Z -> string -> string -> string;
  (** the HTML page of [list_directory], from the directory, the request
      path and the names in the directory *)
  listing_body : string -> string -> list string -> string;
  version_string : string;
  (** [date_time_string()] for now and for a file time *)
  date_time_now : string;
  date_time_string : Z -> string;
  log_date_time_string : string;
  address_string : string;
  filesystemencoding : string;
  (** [repr] of a string, for the [%r] of an error message *)
  repr_str : string -> string
}.

(** A line of the header buffer.  The library stores the line as encoded
    bytes; the embedding keeps its fields. *)
Inductive line : Type :=
| StatusLine (code : Z) (message : string)
| Header (keyword : string) (value : pyobj)
| BlankLine.

(** A call of [wfile.write]. *)
Inductive chunk : Type :=
| HeaderBlock (lines : list line)
| Body (data : string).

(** The request handler object, as far as one request reads and writes it. *)
Record handler : Type := mkhandler {
  command : string;
  path : string;
  requestline : string;
  headers : list (string * string);
  headers_buffer : list line;
  wfile : list chunk;
  stderr : list string;
  stdout : list string
}.

Definition set_path (p : string) (h : handler) : handler :=
  mkhandler (command h) p (requestline h) (headers h) (headers_buffer h)
            (wfile h) (stderr h) (stdout h).

Definition set_buffer (b : list line) (h : handler) : handler :=
  mkhandler (command h) (path h) (requestline h) (headers h) b
            (wfile h) (stderr h) (stdout h).

Definition set_wfile (w : list chunk) (h : handler) : handler :=
  mkhandler (command h) (path h) (requestline h) (headers h)
            (headers_buffer h) w (stderr h) (stdout h).

Definition set_stderr (l : list string) (h : handler) : handler :=
  mkhandler (command h) (path h) (requestline h) (headers h)
            (headers_buffer h) (wfile h) l (stdout h).

Definition set_stdout (l : list string) (h : handler) : handler :=
  mkhandler (command h) (path h) (requestline h) (headers h)
            (headers_buffer h) (wfile h) (stderr h) l.

(** ** The monad of handler methods: state of [self], or an exception *)

Definition M (A : Type) : Type := handler -> handler * (exn + A).

Definition ret {A} (a : A) : M A := fun h => (h, inr a).

Definition bind {A B} (m : M A) (k : A -> M B) : M B :=
  fun h => match m h with
           | (h', inl e) => (h', inl e)
           | (h', inr a) => k a h'
           end.

Definition raise {A} (e : exn) : M A := fun h => (h, inl e).

Definition get : M handler := fun h => (h, inr h).

Definition modify (f : handler -> handler) : M unit := fun h => (f h, inr tt).

Definition lift {A} (r : exn + A) : M A :=
  match r with inl e => raise e | inr a => ret a end.

Declare Scope py_scope.
Delimit Scope py_scope with py.
Notation "x <- m ;; k" := (bind m (fun x => k))
  (at level 61, m at next level, right associativity) : py_scope.
Notation "' ( x , y ) <- m ;; k" := (bind m (fun xy => let (x, y) := xy in k))
  (at level 61, x name, y name, m at next level, right associativity) : py_scope.
Notation "m ;; k" := (bind m (fun _ => k))
  (at level 61, right associativity) : py_scope.
Open Scope py_scope.

(** The overridable methods of the handler class, bound to [self]. *)
Record methods : Type := mkmethods {
  end_headers : M unit;
  guess_type : string -> M pyobj;
  (** [log_message(format, *args)], given [format % args] *)
  log_message : string -> M unit
}.

Definition dquote : string := String (ascii_of_nat 34) EmptyString.

Section Primitive.
Context {W : World}.

(** ** [BaseHTTPRequestHandler] *)

(** [send_response_only], for a request version other than HTTP/0.9. *)
Definition send_response_only (code : Z) (message : option string) : M unit :=
  let message :=
    match message with
    | Some m => m
    | None => match responses code with
              | Some (short, _) => short
              | None => ""
              end
    end in
  modify (fun h => set_buffer (headers_buffer h ++ [StatusLine code message]) h).

(** [send_header]: one more line at the end of the buffer. *)
Definition send_header (keyword : string) (value : pyobj) : M unit :=
  modify (fun h => set_buffer (headers_buffer h ++ [Header keyword value]) h).

Definition flush_headers : M unit :=
  modify (fun h =>
    set_buffer [] (set_wfile (wfile h ++ [HeaderBlock (headers_buffer h)]) h)).

(** [BaseHTTPRequestHandler.end_headers], the target of
    [super().end_headers()]. *)
Definition Base_end_headers : M unit :=
  modify (fun h => set_buffer (headers_buffer h ++ [BlankLine]) h) ;;
  flush_headers.

(** [BaseHTTPRequestHandler.log_message] writes to [sys.stderr]. *)
Definition Base_log_message (msg : string) : M unit :=
  modify (fun h =>
    set_stderr (stderr h ++ [address_string ++ " - - [" ++ log_date_time_string
                             ++ "] " ++ msg ++ String (ascii_of_nat 10) ""]) h).

Definition log_request (self : methods) (code : Z) : M unit :=
  h <- get ;;
  log_message self
    (dquote ++ requestline h ++ dquote ++ " " ++ str_of_int code ++ " -").

Definition log_error (self : methods) (msg : string) : M unit :=
  log_message self msg.

Definition send_response (self : methods) (code : Z) (message : option string)
  : M unit :=
  log_request self code ;;
  send_response_only code message ;;
  send_header "Server" (PStr version_string) ;;
  send_header "Date" (PStr date_time_now).

Definition error_content_type : string := "text/html;charset=utf-8".

Definition write (data : string) : M unit :=
  modify (fun h => set_wfile (wfile h ++ [Body data]) h).

Definition send_error (self : methods) (code : Z) (message : option string)
  : M unit :=
  let (shortmsg, longmsg) :=
    match responses code with
    | Some p => p
    | None => ("???", "???")
    end in
  let message := match message with Some m => m | None => shortmsg end in
  let explain := longmsg in
  log_error self ("code " ++ str_of_int code ++ ", message " ++ message) ;;
  send_response self code (Some message) ;;
  send_header "Connection" (PStr "close") ;;
  let body :=
    if (200 <=? code)
       && negb ((code =? 204) || (code =? 205) || (code =? 304))
    then Some (error_body code message explain)
    else None in
  match body with
  | Some b =>
      send_header "Content-Type" (PStr error_content_type) ;;
      send_header "Content-Length" (PStr (str_of_int (len b)))
  | None => ret tt
  end ;;
  end_headers self ;;
  h <- get ;;
  match body with
  | Some b =>
      if negb (command h =? "HEAD")%string && negb (b =? "")%string
      then write b else ret tt
  | None => ret tt
  end.

(** ** [SimpleHTTPRequestHandler] *)

(** [SimpleHTTPRequestHandler.guess_type], the target of
    [super().guess_type(path)]. *)
Definition Simple_guess_type (path : string) : M pyobj :=
  ret (generic_guess_type path).

(** [translate_path]: the query and the fragment are abandoned first. *)
Definition translate_path (p : string) : string :=
  let p := before_first "?" p in
  let p := before_first "#" p in
  translate_tail p.

Definition list_directory (self : methods) (path_ : string) : M (option file) :=
  match listdir path_ with
  | None =>
      send_error self 404 (Some "No permission to list directory") ;;
      ret None
  | Some names =>
      h <- get ;;
      let encoded := listing_body path_ (path h) names in
      send_response self 200 None ;;
      send_header "Content-type"
                  (PStr ("text/html; charset=" ++ filesystemencoding)) ;;
      send_header "Content-Length" (PStr (str_of_int (len encoded))) ;;
      end_headers self ;;
      ret (Some (mkfile encoded 0))
  end.

(** The tail of [send_head], from [ctype = self.guess_type(path)] on. *)
Definition send_file_head (self : methods) (path_ : string) : M (option file) :=
  ctype <- guess_type self path_ ;;
  if endswith path_ "/" then
    send_error self 404 (Some "File not found") ;; ret None
  else
    match open_rb path_ with
    | None => send_error self 404 (Some "File not found") ;; ret None
    | Some f =>
        h <- get ;;
        if not_modified (headers h) f then
          send_response self 304 None ;;
          end_headers self ;;
          ret None
        else
          send_response self 200 None ;;
          send_header "Content-type" ctype ;;
          send_header "Content-Length" (PStr (str_of_int (len (f_data f)))) ;;
          send_header "Last-Modified" (PStr (date_time_string (f_mtime f))) ;;
          end_headers self ;;
          ret (Some f)
    end.

Definition send_head (self : methods) : M (option file) :=
  h <- get ;;
  let path_ := translate_path (path h) in
  if isdir path_ then
    if negb (endswith (urlsplit_path (path h)) "/") then
      send_response self 301 None ;;
      send_header "Location" (PStr (redirect_location (path h))) ;;
      send_header "Content-Length" (PStr "0") ;;
      end_headers self ;;
      ret None
    else
      match find isfile [Posixpath.join path_ "index.html";
                         Posixpath.join path_ "index.htm"] with
      | Some index => send_file_head self index
      | None => list_directory self path_
      end
  else send_file_head self path_.

Definition Simple_do_GET (self : methods) : M unit :=
  f <- send_head self ;;
  match f with
  | Some f => write (f_data f)
  | None => ret tt
  end.

Definition Simple_do_HEAD (self : methods) : M unit :=
  f <- send_head self ;;
  ret tt.

(** ** Dispatch on the request method *)

(** A handler class: its overridable methods and its [do_*] methods. *)
Record handler_class : Type := mkclass {
  self_methods : methods;
  do_GET : M unit;
  do_HEAD : M unit
}.

(** [getattr(self, 'do_' + command)], [None] when [hasattr] is false. *)
Definition lookup_do (cls : handler_class) (cmd : string) : option (M unit) :=
  if (cmd =? "GET")%string then Some (do_GET cls)
  else if (cmd =? "HEAD")%string then Some (do_HEAD cls)
  else None.

(** [handle_one_request], after [parse_request] has accepted the request. *)
Definition handle_one_request (cls : handler_class) : M unit :=
  h <- get ;;
  match lookup_do cls (command h) with
  | None =>
      send_error (self_methods cls) 501
        (Some ("Unsupported method (" ++ repr_str (command h) ++ ")"))
  | Some method => method
  end.

(** A parsed HTTP/1.x request and the handler object built for it. *)
Record request : Type := mkrequest {
  r_method : string;
  r_target : string;
  r_headers : list (string * string)
}.

Definition new_handler (r : request) : handler :=
  mkhandler (r_method r) (r_target r)
            (r_method r ++ " " ++ r_target r ++ " HTTP/1.1")
            (r_headers r) [] [] [] [].

Definition serve (cls : handler_class) (r : request) : handler * (exn + unit) :=
  handle_one_request cls (new_handler r).

(** What the client receives, and the path the handler ends with. *)
Definition response (cls : handler_class) (r : request) : list chunk :=
  wfile (fst (serve cls r)).

Definition raised (cls : handler_class) (r : request) : option exn :=
  match snd (serve cls r) with inl e => Some e | inr _ => None end.

Definition final_path (cls : handler_class) (r : request) : string :=
  path (fst (serve cls r)).

End Primitive.

(** ** Reading a header block *)

Definition is_header (keyword : string) (l : line) : bool :=
  match l with
  | Header k _ => (k =? keyword)%string
  | _ => false
  end.

(** The values of the headers named [keyword], in order. *)
Definition header_values (keyword : string) (ls : list line) : list pyobj :=
  flat_map (fun l => match l with
                     | Header k v => if (k =? keyword)%string then [v] else []
                     | _ => []
                     end) ls.

(** [Content-Type] headers, whatever the case of the name: the library
    writes [Content-type], the scripts write [Content-Type]. *)
Definition is_content_type (l : line) : bool :=
  is_header "Content-Type" l || is_header "Content-type" l.

Definition count_content_type (ls : list line) : nat :=
  List.length (filter is_content_type ls).

(** The header blocks among what was written. *)
Definition header_blocks (w : list chunk) : list (list line) :=
  flat_map (fun c => match c with HeaderBlock ls => [ls] | Body _ => [] end) w.

End HttpServer.

(* ================================================================== *)
(** * The process: start-up, serving, shutdown *)
(* ================================================================== *)

(** [main] of either script runs in a process whose observable actions are
    recorded as a trace.  What the operating system decides (whether the
    port can be bound, what ends [serve_forever]) is given by [env]. *)

Module Process.
Import Py.

Inductive event : Type :=
| Chdir (dir : string)
| Printed (text : string)
| Bind (host : string) (port : Z)
| ServeForever
| ServerClose.

Record env : Type := mkenv {
  (** [__file__] of the script *)
  script_file : string;
  (** the exception [socketserver.TCPServer(...)] raises, if any *)
  bind_error : option exn;
  (** the exception that ends [serve_forever()]; [None] when nothing ever
      interrupts the server *)
  serve_error : option exn
}.

Record process : Type := mkprocess { cwd : string; trace : list event }.

Inductive result (A : Type) : Type :=
| Done (a : A)
| Raise (e : exn)
| Forever.
Arguments Done {A} a.
Arguments Raise {A} e.
Arguments Forever {A}.

Definition P (A : Type) : Type := process -> process * result A.

Definition ret {A} (a : A) : P A := fun s => (s, Done a).

Definition bind {A B} (m : P A) (k : A -> P B) : P B :=
  fun s => match m s with
           | (s', Done a) => k a s'
           | (s', Raise e) => (s', Raise e)
           | (s', Forever) => (s', Forever)
           end.

Definition raise {A} (e : exn) : P A := fun s => (s, Raise e).

Definition emit (ev : event) : P unit :=
  fun s => (mkprocess (cwd s) (trace s ++ [ev]), Done tt).

Declare Scope proc_scope.
Delimit Scope proc_scope with proc.
Notation "x <- m ;; k" := (bind m (fun x => k))
  (at level 61, m at next level, right associativity) : proc_scope.
Notation "m ;; k" := (bind m (fun _ => k))
  (at level 61, right associativity) : proc_scope.
Open Scope proc_scope.

(** [os.chdir(d)], [os.getcwd()], [print(s)], [sys.exit(n)].  After
    [os.chdir(d)] the working directory is [d], and [os.getcwd()] reports
    it. *)
Definition chdir (d : string) : P unit :=
  fun s => (mkprocess d (trace s ++ [Chdir d]), Done tt).

Definition getcwd : P string := fun s => (s, Done (cwd s)).

Definition print (text : string) : P unit := emit (Printed text).

Definition sys_exit (code : Z) : P unit := raise (SystemExit code).

(** [try: body except C1: h1 except C2 as e: h2 ...]: the first clause whose
    class the exception is an instance of handles it. *)
Definition try_except (body : P unit) (clauses : list ((exn -> bool) * (exn -> P unit)))
  : P unit :=
  fun s => match body s with
           | (s', Raise e) =>
               match find (fun c => fst c e) clauses with
               | Some c => snd c e s'
               | None => (s', Raise e)
               end
           | other => other
           end.

Section Run.
Variable E : env.

(** [with socketserver.TCPServer((host, port), Handler) as httpd: body]:
    the constructor binds and listens; leaving the block, normally or by an
    exception, closes the server. *)
Definition with_TCPServer (host : string) (port : Z) (body : P unit) : P unit :=
  match bind_error E with
  | Some e => raise e
  | None =>
      emit (Bind host port) ;;
      fun s => match body s with
               | (s', Done a) => (emit ServerClose ;; ret a) s'
               | (s', Raise e) => (emit ServerClose ;; raise e) s'
               | (s', Forever) => (s', Forever)
               end
  end.

(** [httpd.serve_forever()] returns only by an exception. *)
Definition serve_forever : P unit :=
  emit ServeForever ;;
  match serve_error E with
  | Some e => raise e
  | None => fun s => (s, Forever)
  end.

End Run.

Definition start : process := mkprocess "" [].

(** The exit status of the interpreter: 0 when [main] returns, the code of
    [sys.exit], 1 after the traceback of any other exception. *)
Definition exit_status (r : result unit) : option Z :=
  match r with
  | Done _ => Some 0
  | Raise (SystemExit c) => Some c
  | Raise _ => Some 1
  | Forever => None
  end.

Definition newline : string := String (ascii_of_nat 10) EmptyString.

End Process.

(* ================================================================== *)
(** * Variant A: [src/dev/tools/server.py] *)
(* ================================================================== *)

Module DevServer.
Import Py HttpServer.

Definition PORT : Z := 8080.

Module CustomHTTPRequestHandler.
Section Handler.
Context {W : World}.

(** [CustomHTTPRequestHandler.end_headers] *)
Definition end_headers : M unit :=
  send_header "Access-Control-Allow-Origin" (PStr "*") ;;
  send_header "Access-Control-Allow-Methods" (PStr "GET, POST, OPTIONS") ;;
  send_header "Access-Control-Allow-Headers" (PStr "Content-Type") ;;
  h <- get ;;
  (if endswith (path h) ".js"
   then send_header "Cache-Control" (PStr "no-cache")
   else ret tt) ;;
  Base_end_headers.

(** [CustomHTTPRequestHandler.guess_type] *)
Definition guess_type (path_ : string) : M pyobj :=
  r <- Simple_guess_type path_ ;;
  '(mimetype, encoding) <- lift (unpack2 r) ;;
  if endswith path_ ".js" then
    ret (PTuple [PStr "application/javascript"; encoding])
  else if endswith path_ ".ts" then
    ret (PTuple [PStr "application/typescript"; encoding])
  else if endswith path_ ".json" then
    ret (PTuple [PStr "application/json"; encoding])
  else ret (PTuple [mimetype; encoding]).

Definition self : methods := mkmethods end_headers guess_type Base_log_message.

(** [do_GET] and [do_HEAD] are inherited. *)
Definition cls : handler_class :=
  mkclass self (Simple_do_GET self) (Simple_do_HEAD self).

End Handler.
End CustomHTTPRequestHandler.

Import Process.

(** [main] *)
Definition main (E : env) : P unit :=
  chdir (Posixpath.dirname (Posixpath.dirname (Posixpath.dirname (script_file E)))) ;;
  print "健身姿态分析系统服务器" ;;
  print ("端口: " ++ str_of_int PORT) ;;
  d <- getcwd ;;
  print ("目录: " ++ d) ;;
  print ("访问: http://localhost:" ++ str_of_int PORT) ;;
  print "按 Ctrl+C 停止服务器" ;;
  print (times "-" 50) ;;
  try_except
    (with_TCPServer E "" PORT
       (print ("服务器运行在 http://localhost:" ++ str_of_int PORT) ;;
        serve_forever E))
    [ (isinstance_KeyboardInterrupt,
       fun _ => print (newline ++ "服务器已停止") ;; sys_exit 0);
      (isinstance_Exception,
       fun e => print ("服务器启动失败: " ++ str_of_exn e) ;; sys_exit 1) ].

End DevServer.

(* ================================================================== *)
(** * Variant B: [src/server.py] *)
(* ================================================================== *)

Module PwaServer.
Import Py HttpServer.

Module PWAHTTPRequestHandler.
Section Handler.
Context {W : World}.

(** [PWAHTTPRequestHandler.end_headers] *)
Definition end_headers : M unit :=
  send_header "Access-Control-Allow-Origin" (PStr "*") ;;
  send_header "Access-Control-Allow-Methods" (PStr "GET, POST, OPTIONS") ;;
  send_header "Access-Control-Allow-Headers" (PStr "Content-Type") ;;
  h <- get ;;
  (if endswith (path h) ".json" then
     send_header "Content-Type" (PStr "application/json")
   else if endswith (path h) ".js" then
     send_header "Content-Type" (PStr "application/javascript")
   else if endswith (path h) ".svg" then
     send_header "Content-Type" (PStr "image/svg+xml")
   else ret tt) ;;
  (if endswith_any (path h) [".js"; ".css"; ".svg"; ".png"; ".jpg"] then
     send_header "Cache-Control" (PStr "public, max-age=31536000")
   else if endswith (path h) ".html" then
     send_header "Cache-Control" (PStr "no-cache")
   else ret tt) ;;
  Base_end_headers.

(** [PWAHTTPRequestHandler.log_message] prints to standard output. *)
Definition log_message (msg : string) : M unit :=
  modify (fun h =>
    set_stdout (stdout h ++ ["[" ++ log_date_time_string ++ "] " ++ msg]) h).

(** [guess_type] is inherited. *)
Definition self : methods := mkmethods end_headers Simple_guess_type log_message.

(** [PWAHTTPRequestHandler.do_GET] *)
Definition do_GET : M unit :=
  h <- get ;;
  (if (path h =? "/")%string then modify (set_path "/main.html") else ret tt) ;;
  Simple_do_GET self.

(** [do_HEAD] is inherited. *)
Definition cls : handler_class := mkclass self do_GET (Simple_do_HEAD self).

End Handler.
End PWAHTTPRequestHandler.

Import Process.

(** [main] *)
Definition main (E : env) : P unit :=
  let PORT := 8080 in
  let script_dir := Pathlib.parent (Pathlib.Path (script_file E)) in
  chdir (Pathlib.fspath script_dir) ;;
  print "PWA姿态估计器服务器" ;;
  d <- getcwd ;;
  print ("当前目录: " ++ d) ;;
  print ("启动服务器在端口 " ++ str_of_int PORT ++ "...") ;;
  print ("请在浏览器中访问: http://localhost:" ++ str_of_int PORT) ;;
  print "按 Ctrl+C 停止服务器" ;;
  print (times "-" 50) ;;
  try_except
    (with_TCPServer E "" PORT (serve_forever E))
    [ (isinstance_KeyboardInterrupt,
       fun _ => print (newline ++ "服务器已停止"));
      (isinstance_OSError,
       fun e =>
         (if errno_is e 48 then
            print ("错误: 端口 " ++ str_of_int PORT ++ " 已被占用") ;;
            print "请尝试关闭其他使用该端口的程序，或修改PORT变量使用其他端口"
          else print ("服务器启动失败: " ++ str_of_exn e)) ;;
         sys_exit 1) ].

End PwaServer.

(* ================================================================== *)
(** * Concrete worlds and requests *)
(* ================================================================== *)

Module Demo.
Import Py HttpServer.

(** A served directory [/srv] holding a handful of assets and no
    [index.html]. *)
Definition files : list (string * string) :=
  [ ("/srv/main.html", "<html>main</html>");
    ("/srv/app.js", "console.log(1)");
    ("/srv/lib.ts", "let x = 1");
    ("/srv/data.json", "{}");
    ("/srv/icon.svg", "<svg/>");
    ("/srv/style.css", "body{}") ].

Fixpoint lookup (k : string) (l : list (string * string)) : option string :=
  match l with
  | [] => None
  | (k', v) :: l' => if (k =? k')%string then Some v else lookup k l'
  end.

(** The generic lookup as CPython has it: a [str]. *)
Definition mimetypes (p : string) : string :=
  if endswith p ".js" then "text/javascript"
  else if endswith p ".ts" then "video/mp2t"
  else if endswith p ".json" then "application/json"
  else if endswith p ".svg" then "image/svg+xml"
  else if endswith p ".html" then "text/html"
  else if endswith p ".css" then "text/css"
  else "application/octet-stream".

Definition http_responses (code : Z) : option (string * string) :=
  if code =? 200 then Some ("OK", "Request fulfilled, document follows")
  else if code =? 301 then Some ("Moved Permanently", "Object moved permanently")
  else if code =? 304 then Some ("Not Modified", "Document has not changed")
  else if code =? 404 then Some ("Not Found", "Nothing matches the given URI")
  else if code =? 501 then Some ("Not Implemented", "Server does not support this operation")
  else None.

Definition world_with (guess : string -> pyobj) : World := {|
  isdir := fun p => (p =? "/srv/")%string || (p =? "/srv")%string;
  isfile := fun p => match lookup p files with Some _ => true | None => false end;
  open_rb := fun p => match lookup p files with
                      | Some d => Some (mkfile d 1700000000)
                      | None => None
                      end;
  listdir := fun p => if (p =? "/srv/")%string || (p =? "/srv")%string
                      then Some (map fst files) else None;
  translate_tail := fun p => "/srv" ++ p;
  urlsplit_path := fun p => before_first "#" (before_first "?" p);
  redirect_location := fun p => p ++ "/";
  generic_guess_type := guess;
  not_modified := fun hs _ => match hs with [] => false | _ => true end;
  responses := http_responses;
  error_body := fun code message explain => "<h1>" ++ message ++ "</h1>";
  listing_body := fun d p names => "<ul>" ++ Py.join "," names ++ "</ul>";
  version_string := "SimpleHTTP/0.6 Python/3.11.2";
  date_time_now := "Wed, 04 Nov 2026 00:00:00 GMT";
  date_time_string := fun _ => "Tue, 14 Nov 2023 22:13:20 GMT";
  log_date_time_string := "04/Nov/2026 00:00:00";
  address_string := "127.0.0.1";
  filesystemencoding := "utf-8";
  repr_str := fun s => "'" ++ s ++ "'"
|}.

(** The world of the standard library: the generic lookup returns a [str]. *)
Definition world : World := world_with (fun p => PStr (mimetypes p)).

(** A world whose generic lookup returns a [(type, encoding)] pair, as
    [CustomHTTPRequestHandler.guess_type] expects of it. *)
Definition pair_world : World :=
  world_with (fun p => PTuple [PStr (mimetypes p); PNone]).

Definition GET (target : string) : request := mkrequest "GET" target [].
Definition HEAD (target : string) : request := mkrequest "HEAD" target [].

(** Requests and the header blocks with which Variant B answers them in
    [world]. *)
Definition conditional_GET (target : string) : request :=
  mkrequest "GET" target
            [("If-Modified-Since", "Wed, 04 Nov 2026 00:00:00 GMT")].

Definition block_B (r : request) : list line :=
  hd [] (header_blocks
           (response (W := world)
                     (PwaServer.PWAHTTPRequestHandler.cls (W := world)) r)).

Definition root_block : list line :=
  Eval vm_compute in block_B (GET "/").

Definition script_block : list line :=
  Eval vm_compute in block_B (GET "/app.js").

Definition typescript_block : list line :=
  Eval vm_compute in block_B (GET "/lib.ts").

Definition not_modified_block : list line :=
  Eval vm_compute in block_B (conditional_GET "/app.js").

Definition query_block : list line :=
  Eval vm_compute in block_B (GET "/main.html?next=/app.js").

(** Start-up environments: the port is taken; the operator interrupts the
    running server. *)
Definition port_in_use (file : string) : Process.env :=
  Process.mkenv file (Some (OSError 48 "Address already in use")) None.

Definition interrupted (file : string) : Process.env :=
  Process.mkenv file None (Some KeyboardInterrupt).

End Demo.

(* ================================================================== *)
(** * The policy as the specification words it *)
(* ================================================================== *)

(** The tables of the specification, written after its text and kept apart
    from the embedding of the scripts above, with which the theorems
    compare them. *)

Module Policy.
Import Py HttpServer.

Inductive variant : Type := VariantA | VariantB.

Definition cls_of {W : World} (v : variant) : handler_class :=
  match v with
  | VariantA => DevServer.CustomHTTPRequestHandler.cls
  | VariantB => PwaServer.PWAHTTPRequestHandler.cls
  end.

Definition methods_of {W : World} (v : variant) : methods :=
  self_methods (cls_of v).

Definition main_of (v : variant) : Process.env -> Process.P unit :=
  match v with
  | VariantA => DevServer.main
  | VariantB => PwaServer.main
  end.

(** The three CORS headers. *)
Definition cors_headers : list line :=
  [ Header "Access-Control-Allow-Origin" (PStr "*");
    Header "Access-Control-Allow-Methods" (PStr "GET, POST, OPTIONS");
    Header "Access-Control-Allow-Headers" (PStr "Content-Type") ].

(** The Cache-Control table of each variant. *)
Definition cache_control (v : variant) (p : string) : option string :=
  match v with
  | VariantA => if endswith p ".js" then Some "no-cache" else None
  | VariantB =>
      if endswith p ".js" || endswith p ".css" || endswith p ".svg"
         || endswith p ".png" || endswith p ".jpg"
      then Some "public, max-age=31536000"
      else if endswith p ".html" then Some "no-cache"
      else None
  end.

(** The MIME override table as the specification states it: [.js], [.ts]
    and [.json] in both variants, [.svg] in Variant B. *)
Definition mime_override (v : variant) (p : string) : option string :=
  if endswith p ".js" then Some "application/javascript"
  else if endswith p ".ts" then Some "application/typescript"
  else if endswith p ".json" then Some "application/json"
  else match v with
       | VariantA => None
       | VariantB => if endswith p ".svg" then Some "image/svg+xml" else None
       end.

(** The [Content-Type] that Variant B's [end_headers] adds. *)
Definition content_type_added (p : string) : option string :=
  if endswith p ".json" then Some "application/json"
  else if endswith p ".js" then Some "application/javascript"
  else if endswith p ".svg" then Some "image/svg+xml"
  else None.

Definition header_of (keyword : string) (value : option string) : list line :=
  match value with
  | Some v => [Header keyword (PStr v)]
  | None => []
  end.

(** The headers chosen by the extension of the path [p]. *)
Definition by_extension (v : variant) (p : string) : list line :=
  match v with
  | VariantA => []
  | VariantB => header_of "Content-Type" (content_type_added p)
  end
  ++ header_of "Cache-Control" (cache_control v p).

(** Everything [end_headers] of a variant puts into the buffer for a
    handler whose path is [p]. *)
Definition injected (v : variant) (p : string) : list line :=
  cors_headers ++ by_extension v p.

(** [super().end_headers()] after [extra] has been buffered: the block is
    closed by the blank line and written out. *)
Definition finalized (extra : list line) (h : handler) : handler :=
  set_buffer []
    (set_wfile (wfile h ++ [HeaderBlock (headers_buffer h ++ extra ++ [BlankLine])]) h).

(** What [guess_type] of a variant returns for a file name: Variant A
    unpacks the generic result and puts the table's type in front of it,
    Variant B inherits the generic lookup. *)
Definition guessed {W : World} (v : variant) (p : string) : exn + pyobj :=
  match v with
  | VariantA =>
      match unpack2 (generic_guess_type p) with
      | inl e => inl e
      | inr (mimetype, encoding) =>
          inr (PTuple [match (if endswith p ".js" then Some "application/javascript"
                              else if endswith p ".ts" then Some "application/typescript"
                              else if endswith p ".json" then Some "application/json"
                              else None) with
                       | Some t => PStr t
                       | None => mimetype
                       end; encoding])
      end
  | VariantB => inr (generic_guess_type p)
  end.

(** What [log_message] of a variant does to the handler. *)
Definition logged {W : World} (v : variant) (msg : string) (h : handler)
  : handler :=
  match v with
  | VariantA =>
      set_stderr (stderr h ++ [address_string ++ " - - [" ++ log_date_time_string
                               ++ "] " ++ msg ++ String (ascii_of_nat 10) ""]) h
  | VariantB =>
      set_stdout (stdout h ++ ["[" ++ log_date_time_string ++ "] " ++ msg]) h
  end.

(** The path a handler holds when the headers are finalized. *)
Definition effective_path (v : variant) (r : request) : string :=
  match v with
  | VariantA => r_target r
  | VariantB =>
      if (r_method r =? "GET")%string && (r_target r =? "/")%string
      then "/main.html" else r_target r
  end.

(** The extensions that occur in the rules of [end_headers]. *)
Definition listed_extensions : list string :=
  [".js"; ".json"; ".svg"; ".css"; ".png"; ".jpg"; ".html"].

(** The handler as the primitive's [do_GET], [do_HEAD] or [send_error]
    finds it. *)
Definition starts (v : variant) (r : request) : handler :=
  set_path (effective_path v r) (new_handler r).

(** Lines the primitive itself buffers after the status line. *)
Definition primitive_keyword (k : string) : bool :=
  existsb (String.eqb k)
    ["Server"; "Date"; "Connection"; "Content-Type"; "Content-type";
     "Content-Length"; "Last-Modified"; "Location"].

Definition primitive_line (l : line) : bool :=
  match l with
  | Header k _ => primitive_keyword k
  | _ => false
  end.

(** The values of the [Content-Type] headers of a block, in order. *)
Definition content_types (ls : list line) : list pyobj :=
  flat_map (fun l => match l with
                     | Header k v => if is_content_type l then [v] else []
                     | _ => []
                     end) ls.

Definition to_values (o : option string) : list pyobj :=
  match o with Some s => [PStr s] | None => [] end.

(** [PWAHTTPRequestHandler] without its [do_GET]: what the class inherits. *)
Definition inherited_cls {W : World} : handler_class :=
  let self := PwaServer.PWAHTTPRequestHandler.self in
  mkclass self (Simple_do_GET self) (Simple_do_HEAD self).

(** A path component: non-empty and without a slash. *)
Definition component (s : string) : Prop :=
  s <> "" /\ contains "/" s = false.

(** A file or directory name: a component other than [.]. *)
Definition file_name (s : string) : Prop := component s /\ s <> ".".

(** The message both scripts print for a start-up failure they do not
    tell apart. *)
Definition failure_message (e : exn) : string :=
  "服务器启动失败: " ++ str_of_exn e.

(** The directory each script changes into, from its [__file__]. *)
Definition base_directory (v : variant) (file : string) : string :=
  match v with
  | VariantA => Posixpath.dirname (Posixpath.dirname (Posixpath.dirname file))
  | VariantB => Pathlib.fspath (Pathlib.parent (Pathlib.Path file))
  end.

(** The run of [main] from the start of the process. *)
Definition run (v : variant) (E : Process.env)
  : Process.process * Process.result unit :=
  main_of v E Process.start.

(** The last events of a trace. *)
Definition ends_with (t suffix : list Process.event) : Prop :=
  exists before, t = (before ++ suffix)%list.


Definition chdirs (t : list Process.event) : list string :=
  flat_map (fun ev => match ev with Process.Chdir d => [d] | _ => [] end) t.

(** ** The claims that do not hold as stated *)

(** The MIME table applied as stated: the response's [Content-Type] is the
    table's value for a listed extension. *)
Definition mime_table_decides {W : World} (v : variant) (r : request) : Prop :=
  forall t ls,
    mime_override v (r_target r) = Some t ->
    In ls (header_blocks (response (cls_of v) r)) ->
    content_types ls = [PStr t].

(** The Cache-Control table applied to the request path. *)
Definition cache_table_on_request_path {W : World} (v : variant) (r : request)
  : Prop :=
  forall ls,
    In ls (header_blocks (response (cls_of v) r)) ->
    header_values "Cache-Control" ls = to_values (cache_control v (r_target r)).


(** Two [Content-Type] headers on every response to a [.js], [.json] or
    [.svg] request of Variant B. *)
Definition two_content_types {W : World} (r : request) : Prop :=
  forall ls,
    (endswith (r_target r) ".js" || endswith (r_target r) ".json"
     || endswith (r_target r) ".svg") = true ->
    In ls (header_blocks (response (cls_of VariantB) r)) ->
    count_content_type ls = 2%nat.

(** No extension rule for a target with a query string. *)
Definition query_disables_rules {W : World} (v : variant) (r : request) : Prop :=
  forall ls,
    contains "?" (r_target r) = true ->
    In ls (header_blocks (response (cls_of v) r)) ->
    header_values "Cache-Control" ls = []
    /\ (v = VariantB ->
        ~ In (Header "Content-Type" (PStr "application/json")) ls
        /\ ~ In (Header "Content-Type" (PStr "application/javascript")) ls
        /\ ~ In (Header "Content-Type" (PStr "image/svg+xml")) ls).

End Policy.

(** ** The shape of an answer *)

Module Shape.
Import Py HttpServer Policy.

(** The handler after [ls] has been appended to its header buffer. *)
Definition buffered (ls : list line) (h : handler) : handler :=
  set_buffer (headers_buffer h ++ ls) h.

(** What a request fixes and no library method changes. *)
Definition kept (h0 h : handler) : Prop :=
  command h = command h0 /\ path h = path h0 /\ headers h = headers h0.

(** From a handler [h0] with nothing buffered or written, the handler [h']
    has answered: one header block, made of a status line, the primitive's
    own headers, the lines [extra] that [end_headers] adds, and the blank
    line; then the chunks [body]. *)
Definition answered_with (extra : list line) (body : list chunk)
  (h0 h' : handler) : Prop :=
  exists code msg pre,
    wfile h' = HeaderBlock (StatusLine code msg :: pre ++ extra ++ [BlankLine]) :: body
    /\ forallb primitive_line pre = true
    /\ count_content_type pre
       = (if (code =? 301) || (code =? 304) then 0%nat else 1%nat)
    /\ headers_buffer h' = []
    /\ kept h0 h'.

(** An answer has no body or one. *)
Definition answered (extra : list line) (h0 h' : handler) : Prop :=
  exists body,
    (body = [] \/ exists b, body = [Body b])
    /\ answered_with extra body h0 h'.

(** After [send_head]: when it returns a file, the body is still to be
    copied. *)
Definition head_sent (extra : list line) (h0 h' : handler) (f : option file)
  : Prop :=
  match f with
  | Some _ => answered_with extra [] h0 h'
  | None => answered extra h0 h'
  end.

(** The result of a method that reaches [Q] unless [guess_type] raises, in
    which case nothing has been buffered or written. *)
Definition settled {A} (guess : string -> exn + pyobj)
  (Q : handler -> A -> Prop) (h0 : handler) (r : handler * (exn + A)) : Prop :=
  match snd r with
  | inl e => fst r = h0 /\ exists p, guess p = inl e
  | inr a => Q (fst r) a
  end.

(** Two handlers that differ in nothing but their request line and their
    log streams. *)
Definition same_core (h1 h2 : handler) : Prop :=
  command h1 = command h2 /\ path h1 = path h2 /\ headers h1 = headers h2
  /\ headers_buffer h1 = headers_buffer h2 /\ wfile h1 = wfile h2.

(** Two computations that take handlers with the same core to handlers
    with the same core and to the same result. *)
Definition agree {A} (m1 m2 : M A) : Prop :=
  forall h1 h2, same_core h1 h2 ->
    same_core (fst (m1 h1)) (fst (m2 h2)) /\ snd (m1 h1) = snd (m2 h2).

End Shape.


(** ** The log of a request *)

Module Logs.
Import Py HttpServer Policy.






(** What [log_message] of a variant appends to each stream for a
    message. *)
Definition to_stdout {W : World} (v : variant) (msg : string) : list string :=
  match v with
  | VariantA => []
  | VariantB => ["[" ++ log_date_time_string ++ "] " ++ msg]
  end.

Definition to_stderr {W : World} (v : variant) (msg : string) : list string :=
  match v with
  | VariantA =>
      [address_string ++ " - - [" ++ log_date_time_string ++ "] " ++ msg
       ++ String (ascii_of_nat 10) ""]
  | VariantB => []
  end.



End Logs.

(** ** A request answered with a file *)

Module Served.
Import Py HttpServer Policy.

(** The reason phrase [send_response] takes from [responses]. *)
Definition reason {W : World} (code : Z) : string :=
  match responses code with
  | Some (short, _) => short
  | None => ""
  end.

(** The file name [send_head] hands to the part that opens a file, for a
    handler whose path is [p]: the translated path, or the index file of a
    directory whose URL ends in a slash; none for a redirect or a
    listing. *)
Definition resolved {W : World} (p : string) : option string :=
  let path_ := translate_path p in
  if isdir path_ then
    if negb (endswith (urlsplit_path p) "/") then None
    else find isfile [Posixpath.join path_ "index.html";
                      Posixpath.join path_ "index.htm"]
  else Some path_.

(** The headers the primitive sends with a file, [ctype] being what
    [guess_type] returned for its name. *)
Definition file_headers {W : World} (ctype : pyobj) (f : file) : list line :=
  [ Header "Server" (PStr version_string);
    Header "Date" (PStr date_time_now);
    Header "Content-type" ctype;
    Header "Content-Length" (PStr (str_of_int (len (f_data f))));
    Header "Last-Modified" (PStr (date_time_string (f_mtime f))) ].

(** The header block of a [200] answer with the file [f], closed by
    [end_headers] for a handler whose path is [p]. *)
Definition file_block {W : World} (v : variant) (p : string) (ctype : pyobj)
  (f : file) : list line :=
  (StatusLine 200 (reason 200)
   :: file_headers ctype f ++ injected v p ++ [BlankLine])%list.

(** The root answered as [/main.html] whatever the method, as the
    specification states it. *)
Definition root_as_main_html {W : World} (method : string)
  (hs : list (string * string)) : Prop :=
  response (cls_of VariantB) (mkrequest method "/" hs)
  = response (cls_of VariantB) (mkrequest method "/main.html" hs).

End Served.

(** ** The error number of an address in use *)

Module Errno.
Import Py.



End Errno.
(* ================================================================== *)
(** * Facts about the string methods *)
(* ================================================================== *)

Section StringFacts.
Import Py.

Lemma endswith_unfold (s suffix : string) :
  endswith s suffix
  = (s =? suffix)%string
    || match s with
       | EmptyString => false
       | String _ s' => endswith s' suffix
       end.
Proof. destruct s; reflexivity. Qed.

Lemma endswith_refl (s : string) : endswith s s = true.
Proof.
  rewrite endswith_unfold, String.eqb_refl. reflexivity.
Qed.

(** [endswith] holds exactly of the strings that are something followed by
    the suffix. *)
Lemma endswith_spec (s suffix : string) :
  endswith s suffix = true <-> exists p, s = (p ++ suffix)%string.
Proof.
  split.
  - induction s as [|a s IH]; rewrite endswith_unfold.
    + rewrite orb_false_r. intros H. apply String.eqb_eq in H. subst.
      exists ""%string. reflexivity.
    + intros H. apply orb_true_iff in H. destruct H as [H|H].
      * apply String.eqb_eq in H. exists ""%string. exact H.
      * destruct (IH H) as [p Hp]. exists (String a p). simpl. now rewrite Hp.
  - intros [p ->]. induction p as [|a p IH].
    + apply endswith_refl.
    + change (String a p ++ suffix)%string with (String a (p ++ suffix)).
      rewrite endswith_unfold, IH. apply orb_true_r.
Qed.

Lemma contains_app (c : ascii) (s t : string) :
  contains c (s ++ t) = contains c s || contains c t.
Proof.
  induction s as [|a s IH]; simpl; [reflexivity|].
  rewrite IH. apply orb_assoc.
Qed.

(** A suffix without the character [c] cannot reach across a [c]: whether
    [p ++ c ++ q] ends with it is decided by [q] alone. *)
Lemma endswith_across (c : ascii) (p q suffix : string) :
  contains c suffix = false ->
  endswith (p ++ String c q) suffix = endswith q suffix.
Proof.
  intros Hc.
  assert (Hneq : forall x, (x ++ String c q =? suffix)%string = false).
  { intros x. apply String.eqb_neq. intros E.
    rewrite <- E, contains_app in Hc. simpl in Hc.
    rewrite Ascii.eqb_refl in Hc. simpl in Hc.
    rewrite orb_true_r in Hc. discriminate. }
  induction p as [|a p IH]; cbn [append].
  - rewrite endswith_unfold. pose proof (Hneq ""%string) as E.
    cbn [append] in E. now rewrite E.
  - rewrite endswith_unfold. pose proof (Hneq (String a p)) as E.
    cbn [append] in E. now rewrite E, IH.
Qed.

Lemma before_first_app (c : ascii) (p q : string) :
  contains c p = false ->
  before_first c (p ++ String c q) = p.
Proof.
  induction p as [|a p IH]; simpl.
  - now rewrite Ascii.eqb_refl.
  - intros H. apply orb_false_iff in H. destruct H as [Ha Hp].
    rewrite Ha. now rewrite IH.
Qed.

Lemma before_first_none (c : ascii) (p : string) :
  contains c p = false -> before_first c p = p.
Proof.
  induction p as [|a p IH]; simpl; [reflexivity|].
  intros H. apply orb_false_iff in H. destruct H as [Ha Hp].
  rewrite Ha. now rewrite IH.
Qed.

End StringFacts.

(* ================================================================== *)
(** * Facts about the primitive, for any subclass that overrides
      [end_headers], [guess_type] and [log_message] in the way the two
      scripts do *)
(* ================================================================== *)

Section PrimitiveFacts.
Import Py HttpServer Policy Shape.
Context {W : World}.

Variable self : methods.
(** what [end_headers] buffers, from the path of the handler *)
Variable extra : string -> list line.
(** what [log_message] does to the handler *)
Variable logged : string -> handler -> handler.
(** what [guess_type] returns *)
Variable guessed : string -> exn + pyobj.

Hypothesis end_headers_eq :
  forall h, end_headers self h = (finalized (extra (path h)) h, inr tt).
Hypothesis log_message_eq :
  forall m h, log_message self m h = (logged m h, inr tt).
Hypothesis logged_command : forall m h, command (logged m h) = command h.
Hypothesis logged_path : forall m h, path (logged m h) = path h.
Hypothesis logged_headers : forall m h, headers (logged m h) = headers h.
Hypothesis logged_buffer :
  forall m h, headers_buffer (logged m h) = headers_buffer h.
Hypothesis logged_wfile : forall m h, wfile (logged m h) = wfile h.
Hypothesis guess_type_eq :
  forall p h, guess_type self p h = (h, guessed p).

Ltac simp :=
  cbn [set_buffer set_wfile set_path set_stderr set_stdout finalized
       command path requestline headers headers_buffer wfile stderr stdout
       fst snd app];
  rewrite ?logged_command, ?logged_path, ?logged_headers, ?logged_buffer,
          ?logged_wfile;
  repeat match goal with
         | H : headers_buffer ?h = _ |- _ => rewrite H
         | H : wfile ?h = _ |- _ => rewrite H
         end;
  cbn [app].

Ltac run :=
  repeat (progress (unfold bind, get, modify, ret, raise, lift, write,
                    send_header, send_response_only, flush_headers;
                    cbn beta iota zeta)
          || (rewrite log_message_eq; simp)
          || (rewrite end_headers_eq; simp)
          || (rewrite guess_type_eq; simp)
          || (progress simp)).

Ltac prefix_of l :=
  lazymatch l with
  | ?x :: ?l' => let p := prefix_of l' in constr:(x :: p)
  | _ => constr:(@nil line)
  end.

Ltac finish_with :=
  lazymatch goal with
  | |- context [HeaderBlock (StatusLine ?c ?m :: ?rest) :: _] =>
      let p := prefix_of rest in exists c, m, p
  end;
  repeat split; try reflexivity.

Ltac finish :=
  unfold settled, head_sent, answered, answered_with, kept; simp;
  lazymatch goal with
  | |- exists body : list chunk, _ =>
      lazymatch goal with
      | |- context [HeaderBlock (StatusLine _ _ :: _) :: ?body] =>
          exists body; split;
          [ first [left; reflexivity | right; eexists; reflexivity]
          | finish_with ]
      end
  | |- _ => finish_with
  end.

Lemma send_error_answers (code : Z) (message : option string) (h : handler) :
  code = 404 \/ code = 501 ->
  headers_buffer h = [] -> wfile h = [] ->
  exists h', send_error self code message h = (h', inr tt)
             /\ answered (extra (path h)) h h'.
Proof using All.
  intros Hcode Hb Hw.
  unfold send_error.
  assert (Hbody : (200 <=? code)
       && negb ((code =? 204) || (code =? 205) || (code =? 304)) = true)
    by (destruct Hcode; subst; reflexivity).
  rewrite Hbody.
  assert (Hcount : (if (code =? 301) || (code =? 304) then 0%nat else 1%nat) = 1%nat)
    by (destruct Hcode; subst; reflexivity).
  destruct (responses code) as [[short long]|];
    unfold log_error, send_response, log_request; run;
    match goal with |- context [if ?c then _ else _] => destruct c end;
    (eexists; split; [reflexivity|]); finish; rewrite Hcount; reflexivity.
Qed.

Lemma list_directory_answers (d : string) (h : handler) :
  headers_buffer h = [] -> wfile h = [] ->
  exists h' f, list_directory self d h = (h', inr f)
               /\ head_sent (extra (path h)) h h' f.
Proof using All.
  intros Hb Hw. unfold list_directory.
  destruct (listdir d) as [names|].
  - unfold send_response, log_request. run.
    do 2 eexists; split; [reflexivity|]. finish.
  - destruct (send_error_answers 404
                (Some "No permission to list directory"%string) h)
      as [h' [E P]]; auto.
    unfold bind. rewrite E. unfold ret.
    do 2 eexists; split; [reflexivity | exact P].
Qed.

Lemma send_file_head_settles (p : string) (h : handler) :
  headers_buffer h = [] -> wfile h = [] ->
  settled guessed (head_sent (extra (path h)) h) h (send_file_head self p h).
Proof using All.
  intros Hb Hw. unfold send_file_head.
  unfold bind at 1. rewrite guess_type_eq.
  destruct (guessed p) as [e|ctype] eqn:G.
  - split; [reflexivity | now exists p].
  - destruct (endswith p "/").
    + destruct (send_error_answers 404 (Some "File not found"%string) h)
        as [h' [E P]]; auto.
      unfold bind. rewrite E. exact P.
    + destruct (open_rb p) as [f|].
      * unfold bind at 1, get at 1. cbn beta iota.
        destruct (not_modified (headers h) f);
          unfold send_response, log_request; run; finish.
      * destruct (send_error_answers 404 (Some "File not found"%string) h)
          as [h' [E P]]; auto.
        unfold bind. rewrite E. exact P.
Qed.

Lemma send_head_settles (h : handler) :
  headers_buffer h = [] -> wfile h = [] ->
  settled guessed (head_sent (extra (path h)) h) h (send_head self h).
Proof using All.
  intros Hb Hw. unfold send_head. unfold bind at 1, get at 1. cbn beta iota.
  destruct (isdir (translate_path (path h))).
  - destruct (negb (endswith (urlsplit_path (path h)) "/")).
    + unfold send_response, log_request. run. finish.
    + destruct (find isfile _) as [index|].
      * now apply send_file_head_settles.
      * destruct (list_directory_answers (translate_path (path h)) h)
          as [h' [f [E P]]]; auto.
        rewrite E. exact P.
  - now apply send_file_head_settles.
Qed.

(** [do_GET] of the primitive: an answer, with the file as its body when
    there is one, unless [guess_type] raises. *)
Lemma Simple_do_GET_settles (h : handler) :
  headers_buffer h = [] -> wfile h = [] ->
  settled guessed (fun h' _ => answered (extra (path h)) h h') h
          (Simple_do_GET self h).
Proof using All.
  intros Hb Hw. unfold Simple_do_GET, bind.
  pose proof (send_head_settles h Hb Hw) as S.
  destruct (send_head self h) as [h' [e|[f|]]]; try exact S.
  unfold settled, head_sent in *. cbn [snd fst] in *.
  destruct S as (code & msg & pre & Ew & Hp & Hc & Hbuf & K).
  exists [Body (f_data f)]. split; [right; eauto|].
  exists code, msg, pre. unfold write, modify. simp.
  repeat split; try assumption; try apply K.
Qed.

Lemma Simple_do_HEAD_settles (h : handler) :
  headers_buffer h = [] -> wfile h = [] ->
  settled guessed (fun h' _ => answered (extra (path h)) h h') h
          (Simple_do_HEAD self h).
Proof using All.
  intros Hb Hw. unfold Simple_do_HEAD, bind.
  pose proof (send_head_settles h Hb Hw) as S.
  destruct (send_head self h) as [h' [e|[f|]]]; try exact S.
  unfold settled, head_sent in *. cbn [snd fst] in *.
  exists []. split; [now left | exact S].
Qed.

End PrimitiveFacts.

(* ================================================================== *)
(** * The request line and the logs do not reach the response *)
(* ================================================================== *)

Section Agreement.
Import Py HttpServer Policy Shape.
Context {W : World}.

Lemma same_core_refl (h : handler) : same_core h h.
Proof. repeat split. Qed.

Lemma agree_ret {A} (a : A) : agree (ret a) (ret a).
Proof. intros h1 h2 S. split; [exact S | reflexivity]. Qed.

Lemma agree_bind {A B} (m1 m2 : M A) (k1 k2 : A -> M B) :
  agree m1 m2 -> (forall a, agree (k1 a) (k2 a)) ->
  agree (bind m1 k1) (bind m2 k2).
Proof.
  intros Hm Hk h1 h2 S. unfold bind.
  destruct (Hm h1 h2 S) as [S' R].
  destruct (m1 h1) as [h1' [e1|a1]], (m2 h2) as [h2' [e2|a2]];
    cbn [fst snd] in *; try discriminate.
  - split; [exact S' | congruence].
  - injection R as ->. now apply Hk.
Qed.

Lemma agree_get {A} (k1 k2 : handler -> M A) :
  (forall h1 h2, same_core h1 h2 -> agree (k1 h1) (k2 h2)) ->
  agree (bind get k1) (bind get k2).
Proof.
  intros Hk h1 h2 S. unfold bind, get. now apply Hk.
Qed.

Lemma agree_modify (f : handler -> handler) :
  (forall h1 h2, same_core h1 h2 -> same_core (f h1) (f h2)) ->
  agree (modify f) (modify f).
Proof.
  intros Hf h1 h2 S. split; [now apply Hf | reflexivity].
Qed.

Lemma agree_send_header (k : string) (v : pyobj) :
  agree (send_header k v) (send_header k v).
Proof.
  apply agree_modify. intros h1 h2 (Hc & Hp & Hh & Hb & Hw).
  repeat split; cbn; congruence.
Qed.

Lemma agree_send_response_only (code : Z) (m : option string) :
  agree (send_response_only code m) (send_response_only code m).
Proof.
  apply agree_modify. intros h1 h2 (Hc & Hp & Hh & Hb & Hw).
  repeat split; cbn; congruence.
Qed.

Lemma agree_write (b : string) : agree (write b) (write b).
Proof.
  apply agree_modify. intros h1 h2 (Hc & Hp & Hh & Hb & Hw).
  repeat split; cbn; congruence.
Qed.

Lemma agree_Base_end_headers : agree Base_end_headers Base_end_headers.
Proof.
  unfold Base_end_headers, flush_headers.
  apply agree_bind; [|intros _];
    apply agree_modify; intros h1 h2 (Hc & Hp & Hh & Hb & Hw);
    repeat split; cbn; congruence.
Qed.

Variable self : methods.
Hypothesis end_agree : agree (end_headers self) (end_headers self).
Hypothesis log_agree :
  forall m1 m2, agree (log_message self m1) (log_message self m2).
Hypothesis guess_agree :
  forall p, agree (guess_type self p) (guess_type self p).

Ltac agree_step :=
  first [ apply agree_ret
        | apply agree_send_header
        | apply agree_send_response_only
        | apply agree_write
        | apply end_agree
        | apply log_agree
        | apply guess_agree
        | apply agree_bind; [|intros ?] ].

Lemma agree_send_response (code : Z) (m : option string) :
  agree (send_response self code m) (send_response self code m).
Proof using All.
  unfold send_response, log_request.
  apply agree_bind; [|intros _].
  - apply agree_get. intros h1 h2 _. apply log_agree.
  - repeat agree_step.
Qed.

Lemma agree_send_error (code : Z) (m : option string) :
  agree (send_error self code m) (send_error self code m).
Proof using All.
  unfold send_error, log_error.
  destruct (responses code) as [[short long]|];
    (apply agree_bind; [apply log_agree | intros _];
     apply agree_bind; [apply agree_send_response | intros _];
     apply agree_bind; [apply agree_send_header | intros _];
     apply agree_bind;
     [ destruct (_ && _); repeat agree_step | intros _ ];
     apply agree_bind; [apply end_agree | intros _];
     apply agree_get; intros h1 h2 (Hc & _); rewrite Hc;
     destruct (_ && negb (_ || _)); [|apply agree_ret];
     destruct (_ && _); repeat agree_step).
Qed.

Lemma agree_list_directory (d : string) :
  agree (list_directory self d) (list_directory self d).
Proof using All.
  unfold list_directory. destruct (listdir d) as [names|].
  - apply agree_get. intros h1 h2 (_ & Hp & _). rewrite Hp.
    apply agree_bind; [apply agree_send_response | intros _].
    repeat agree_step.
  - apply agree_bind; [apply agree_send_error | intros _]. apply agree_ret.
Qed.

Lemma agree_send_file_head (p : string) :
  agree (send_file_head self p) (send_file_head self p).
Proof using All.
  unfold send_file_head.
  apply agree_bind; [apply guess_agree | intros ctype].
  destruct (endswith p "/").
  - apply agree_bind; [apply agree_send_error | intros _]. apply agree_ret.
  - destruct (open_rb p) as [f|].
    + apply agree_get. intros h1 h2 (_ & _ & Hh & _). rewrite Hh.
      destruct (not_modified (headers h2) f);
        (apply agree_bind; [apply agree_send_response | intros _]);
        repeat agree_step.
    + apply agree_bind; [apply agree_send_error | intros _]. apply agree_ret.
Qed.

Lemma agree_send_head : agree (send_head self) (send_head self).
Proof using All.
  unfold send_head. apply agree_get. intros h1 h2 (_ & Hp & _). rewrite Hp.
  destruct (isdir _).
  - destruct (negb _).
    + apply agree_bind; [apply agree_send_response | intros _].
      repeat agree_step.
    + destruct (find isfile _).
      * apply agree_send_file_head.
      * apply agree_list_directory.
  - apply agree_send_file_head.
Qed.

Lemma agree_Simple_do_GET : agree (Simple_do_GET self) (Simple_do_GET self).
Proof using All.
  unfold Simple_do_GET.
  apply agree_bind; [apply agree_send_head | intros [f|]].
  - apply agree_write.
  - apply agree_ret.
Qed.

Lemma agree_Simple_do_HEAD : agree (Simple_do_HEAD self) (Simple_do_HEAD self).
Proof using All.
  unfold Simple_do_HEAD.
  apply agree_bind; [apply agree_send_head | intros f]. apply agree_ret.
Qed.

End Agreement.

(* ================================================================== *)
(** * The two handler classes *)
(* ================================================================== *)

Section Variants.
Import Py HttpServer Policy Shape.
Import DevServer PwaServer.
Context {W : World}.

(** ** The overridden methods, method by method *)

Lemma bind_run {A B} (m : M A) (k : A -> M B) (h h' : handler) (a : A) :
  m h = (h', inr a) -> bind m k h = k a h'.
Proof. intros E. unfold bind. now rewrite E. Qed.

Lemma send_header_eq (k : string) (v : pyobj) (h : handler) :
  send_header k v h = (buffered [Header k v] h, inr tt).
Proof. reflexivity. Qed.

Lemma buffered_twice (l1 l2 : list line) (h : handler) :
  buffered l2 (buffered l1 h) = buffered (l1 ++ l2) h.
Proof.
  destruct h. unfold buffered, set_buffer. cbn. now rewrite app_assoc.
Qed.

Lemma buffered_nil (h : handler) : buffered [] h = h.
Proof.
  destruct h. unfold buffered, set_buffer. cbn. now rewrite app_nil_r.
Qed.

Lemma optional_header_eq (k : string) (o : option string) (h : handler) :
  match o with
  | Some v => send_header k (PStr v)
  | None => ret tt
  end h = (buffered (header_of k o) h, inr tt).
Proof.
  destruct o; cbn [header_of]; [reflexivity|].
  now rewrite buffered_nil.
Qed.

Lemma Base_end_headers_eq (ls : list line) (h : handler) :
  Base_end_headers (buffered ls h) = (finalized ls h, inr tt).
Proof.
  destruct h. unfold Base_end_headers, flush_headers, bind, modify, finalized,
    buffered, set_buffer, set_wfile. cbn. now rewrite <- app_assoc.
Qed.

(** The two chains of tests in Variant B's [end_headers] are look-ups in
    the tables. *)
Lemma content_type_chain (p : string) :
  (if endswith p ".json" then
     send_header "Content-Type" (PStr "application/json")
   else if endswith p ".js" then
     send_header "Content-Type" (PStr "application/javascript")
   else if endswith p ".svg" then
     send_header "Content-Type" (PStr "image/svg+xml")
   else ret tt)
  = match content_type_added p with
    | Some v => send_header "Content-Type" (PStr v)
    | None => ret tt
    end.
Proof.
  unfold content_type_added.
  destruct (endswith p ".json"), (endswith p ".js"), (endswith p ".svg");
    reflexivity.
Qed.

Lemma cache_control_chain (p : string) :
  (if endswith_any p [".js"; ".css"; ".svg"; ".png"; ".jpg"] then
     send_header "Cache-Control" (PStr "public, max-age=31536000")
   else if endswith p ".html" then
     send_header "Cache-Control" (PStr "no-cache")
   else ret tt)
  = match cache_control VariantB p with
    | Some v => send_header "Cache-Control" (PStr v)
    | None => ret tt
    end.
Proof.
  unfold cache_control, endswith_any. cbn [existsb].
  destruct (endswith p ".js"), (endswith p ".css"), (endswith p ".svg"),
    (endswith p ".png"), (endswith p ".jpg"), (endswith p ".html");
    reflexivity.
Qed.

Lemma cache_control_chain_A (p : string) :
  (if endswith p ".js"
   then send_header "Cache-Control" (PStr "no-cache") else ret tt)
  = match cache_control VariantA p with
    | Some v => send_header "Cache-Control" (PStr v)
    | None => ret tt
    end.
Proof. unfold cache_control. destruct (endswith p ".js"); reflexivity. Qed.

(** [end_headers] of either class buffers the lines [injected] names, the
    blank line after them, and writes the block out. *)
Lemma end_headers_eq (v : variant) (h : handler) :
  end_headers (methods_of v) h = (finalized (injected v (path h)) h, inr tt).
Proof.
  destruct v;
    cbn [methods_of cls_of self_methods
         CustomHTTPRequestHandler.cls CustomHTTPRequestHandler.self
         PWAHTTPRequestHandler.cls PWAHTTPRequestHandler.self end_headers].
  - unfold CustomHTTPRequestHandler.end_headers.
    rewrite (bind_run _ _ _ _ _ (send_header_eq _ _ _)).
    rewrite (bind_run _ _ _ _ _ (send_header_eq _ _ _)).
    rewrite (bind_run _ _ _ _ _ (send_header_eq _ _ _)).
    rewrite !buffered_twice.
    rewrite (bind_run get _ _ _ _ eq_refl).
    change (path (buffered _ h)) with (path h).
    rewrite cache_control_chain_A.
    rewrite (bind_run _ _ _ _ _ (optional_header_eq _ _ _)).
    rewrite buffered_twice. apply Base_end_headers_eq.
  - unfold PWAHTTPRequestHandler.end_headers.
    rewrite (bind_run _ _ _ _ _ (send_header_eq _ _ _)).
    rewrite (bind_run _ _ _ _ _ (send_header_eq _ _ _)).
    rewrite (bind_run _ _ _ _ _ (send_header_eq _ _ _)).
    rewrite !buffered_twice.
    rewrite (bind_run get _ _ _ _ eq_refl).
    change (path (buffered _ h)) with (path h).
    rewrite content_type_chain, cache_control_chain.
    rewrite (bind_run _ _ _ _ _ (optional_header_eq _ _ _)).
    rewrite (bind_run _ _ _ _ _ (optional_header_eq _ _ _)).
    rewrite !buffered_twice. rewrite <- app_assoc.
    apply Base_end_headers_eq.
Qed.

Lemma log_message_eq (v : variant) (m : string) (h : handler) :
  log_message (methods_of v) m h = (logged v m h, inr tt).
Proof. destruct v; reflexivity. Qed.

Lemma logged_command v m h : command (logged v m h) = command h.
Proof. destruct v; reflexivity. Qed.
Lemma logged_path v m h : path (logged v m h) = path h.
Proof. destruct v; reflexivity. Qed.
Lemma logged_headers v m h : headers (logged v m h) = headers h.
Proof. destruct v; reflexivity. Qed.
Lemma logged_buffer v m h : headers_buffer (logged v m h) = headers_buffer h.
Proof. destruct v; reflexivity. Qed.
Lemma logged_wfile v m h : wfile (logged v m h) = wfile h.
Proof. destruct v; reflexivity. Qed.

(** [guess_type] of either class leaves the handler alone and returns
    what [guessed] names. *)
Lemma guess_type_eq (v : variant) (p : string) (h : handler) :
  guess_type (methods_of v) p h = (h, guessed v p).
Proof.
  destruct v; [|reflexivity].
  cbn [methods_of cls_of self_methods CustomHTTPRequestHandler.cls
       CustomHTTPRequestHandler.self guess_type].
  unfold CustomHTTPRequestHandler.guess_type, guessed, Simple_guess_type,
    bind, ret, lift.
  destruct (unpack2 (generic_guess_type p)) as [e|[m enc]]; [reflexivity|].
  unfold ret.
  destruct (endswith p ".js"); [reflexivity|].
  destruct (endswith p ".ts"); [reflexivity|].
  destruct (endswith p ".json"); reflexivity.
Qed.

Lemma end_agree (v : variant) :
  agree (end_headers (methods_of v)) (end_headers (methods_of v)).
Proof.
  intros h1 h2 (Hc & Hp & Hh & Hb & Hw). rewrite !end_headers_eq.
  cbn [fst snd]. split; [|reflexivity].
  unfold same_core, finalized.
  cbn [set_buffer set_wfile command path headers headers_buffer wfile].
  rewrite Hc, Hp, Hh, Hb, Hw. repeat split.
Qed.

Lemma log_agree (v : variant) (m1 m2 : string) :
  agree (log_message (methods_of v) m1) (log_message (methods_of v) m2).
Proof.
  intros h1 h2 S. rewrite !log_message_eq. cbn [fst snd].
  split; [|reflexivity].
  unfold same_core.
  rewrite !logged_command, !logged_path, !logged_headers, !logged_buffer,
    !logged_wfile. exact S.
Qed.

Lemma guess_agree (v : variant) (p : string) :
  agree (guess_type (methods_of v) p) (guess_type (methods_of v) p).
Proof.
  intros h1 h2 S. rewrite !guess_type_eq. split; [exact S | reflexivity].
Qed.

(** ** One request *)

Lemma fresh_starts (v : variant) (r : request) :
  headers_buffer (starts v r) = [] /\ wfile (starts v r) = []
  /\ path (starts v r) = effective_path v r
  /\ command (starts v r) = r_method r.
Proof. repeat split. Qed.

Lemma do_GET_settles (v : variant) (h : handler) :
  headers_buffer h = [] -> wfile h = [] ->
  settled (guessed v) (fun h' _ => answered (injected v (path h)) h h') h
          (Simple_do_GET (methods_of v) h).
Proof.
  apply (Simple_do_GET_settles (methods_of v) (injected v) (logged v)
           (guessed v) (end_headers_eq v) (log_message_eq v)
           (logged_command v) (logged_path v) (logged_headers v)
           (logged_buffer v) (logged_wfile v) (guess_type_eq v)).
Qed.

Lemma do_HEAD_settles (v : variant) (h : handler) :
  headers_buffer h = [] -> wfile h = [] ->
  settled (guessed v) (fun h' _ => answered (injected v (path h)) h h') h
          (Simple_do_HEAD (methods_of v) h).
Proof.
  apply (Simple_do_HEAD_settles (methods_of v) (injected v) (logged v)
           (guessed v) (end_headers_eq v) (log_message_eq v)
           (logged_command v) (logged_path v) (logged_headers v)
           (logged_buffer v) (logged_wfile v) (guess_type_eq v)).
Qed.

Lemma send_error_settles (v : variant) (code : Z) (m : option string)
  (h : handler) :
  code = 404 \/ code = 501 ->
  headers_buffer h = [] -> wfile h = [] ->
  settled (guessed v) (fun h' _ => answered (injected v (path h)) h h') h
          (send_error (methods_of v) code m h).
Proof.
  intros Hc Hb Hw.
  destruct (send_error_answers (methods_of v) (injected v) (logged v)
              (guessed v) (end_headers_eq v) (log_message_eq v)
              (logged_command v) (logged_path v) (logged_headers v)
              (logged_buffer v) (logged_wfile v) (guess_type_eq v)
              code m h Hc Hb Hw) as [h' [E P]].
  rewrite E. exact P.
Qed.

(** Handling a request: the primitive finds the handler [starts v r] and
    answers from it, unless [guess_type] raises. *)
Lemma serve_settles (v : variant) (r : request) :
  settled (guessed v)
          (fun h' _ => answered (injected v (effective_path v r)) (starts v r) h')
          (starts v r) (serve (cls_of v) r).
Proof.
  unfold serve, handle_one_request. unfold bind at 1, get at 1.
  cbn beta iota. cbn [command new_handler]. unfold lookup_do.
  destruct (r_method r =? "GET")%string eqn:EG.
  - destruct v.
    + apply (do_GET_settles VariantA (new_handler r)); reflexivity.
    + cbn [cls_of do_GET PWAHTTPRequestHandler.cls].
      unfold PWAHTTPRequestHandler.do_GET. unfold bind at 1, get at 1.
      cbn beta iota. cbn [path new_handler].
      unfold starts, effective_path. rewrite EG. cbn [andb].
      destruct (r_target r =? "/")%string eqn:ET.
      * unfold bind at 1, modify at 1. cbn beta iota.
        apply (do_GET_settles VariantB (set_path "/main.html" (new_handler r)));
          reflexivity.
      * unfold bind at 1, ret at 1. cbn beta iota.
        apply (do_GET_settles VariantB (new_handler r)); reflexivity.
  - assert (Hs : starts v r = new_handler r).
    { unfold starts, effective_path. rewrite EG. destruct v; reflexivity. }
    assert (He : effective_path v r = path (new_handler r)).
    { unfold effective_path. rewrite EG. destruct v; reflexivity. }
    rewrite Hs, He.
    destruct (r_method r =? "HEAD")%string.
    + destruct v.
      * apply (do_HEAD_settles VariantA (new_handler r)); reflexivity.
      * apply (do_HEAD_settles VariantB (new_handler r)); reflexivity.
    + destruct v.
      * apply (send_error_settles VariantA); auto.
      * apply (send_error_settles VariantB); auto.
Qed.

(** A response is one header block of the expected shape and at most one
    body; there is none only when [guess_type] raised. *)
Lemma response_shape (v : variant) (r : request) :
  final_path (cls_of v) r = effective_path v r
  /\ match raised (cls_of v) r with
     | Some e => response (cls_of v) r = [] /\ exists p, guessed v p = inl e
     | None =>
         exists code msg pre body,
           response (cls_of v) r
           = HeaderBlock (StatusLine code msg :: pre
                          ++ injected v (effective_path v r) ++ [BlankLine])
             :: body
           /\ forallb primitive_line pre = true
           /\ count_content_type pre
              = (if (code =? 301) || (code =? 304) then 0%nat else 1%nat)
           /\ (body = [] \/ exists b, body = [Body b])
     end.
Proof.
  pose proof (serve_settles v r) as S.
  unfold final_path, raised, response, settled in *.
  destruct (serve (cls_of v) r) as [h' [e|[]]]; cbn [fst snd] in *.
  - destruct S as [-> P]. repeat split; assumption.
  - destruct S as (body & Hbody & code & msg & pre & Ew & Hp & Hc & Hb & K).
    split; [apply K|].
    exists code, msg, pre, body. repeat split; assumption.
Qed.

End Variants.

(* ================================================================== *)
(** * Facts about the start-up paths *)
(* ================================================================== *)

Section PathFacts.
Import Py.

Lemma rfind_nonneg_or_none (c : ascii) (s : string) :
  rfind c s = -1 \/ 0 <= rfind c s < len s.
Proof.
  unfold len. induction s as [|a s IH]; cbn [rfind String.length]; [now left|].
  destruct IH as [IH|IH].
  - rewrite IH. cbn. destruct (a =? c)%char; [right|left]; lia.
  - destruct (0 <=? rfind c s) eqn:E; [right; lia|].
    apply Z.leb_gt in E. lia.
Qed.

Lemma rfind_absent (c : ascii) (s : string) :
  contains c s = false -> rfind c s = -1.
Proof.
  induction s as [|a s IH]; cbn [rfind contains]; [reflexivity|].
  intros H. apply orb_false_iff in H. destruct H as [Ha Hs].
  rewrite (IH Hs), Ha. reflexivity.
Qed.

(** The last [c] of [d ++ c ++ t] is the one in the middle when [t] has
    none. *)
Lemma rfind_last (c : ascii) (d t : string) :
  contains c t = false ->
  rfind c (d ++ String c t) = len d.
Proof.
  intros Ht. unfold len. induction d as [|a d IH]; cbn [append rfind String.length].
  - rewrite (rfind_absent _ _ Ht). cbn. now rewrite Ascii.eqb_refl.
  - rewrite IH. destruct (0 <=? Z.of_nat (String.length d)) eqn:E.
    + lia.
    + apply Z.leb_gt in E. lia.
Qed.

Lemma substring_prefix (d t : string) :
  String.substring 0 (String.length d) (d ++ t) = d.
Proof.
  induction d as [|a d IH]; cbn.
  - destruct t; reflexivity.
  - now rewrite IH.
Qed.

Lemma slice_to_prefix (d t : string) : slice_to (len d) (d ++ t) = d.
Proof.
  unfold slice_to, len. rewrite Nat2Z.id. apply substring_prefix.
Qed.

Lemma append_assoc (a b c : string) : ((a ++ b) ++ c = a ++ (b ++ c))%string.
Proof. induction a as [|x a IH]; cbn; [reflexivity | now rewrite IH]. Qed.

Lemma length_append (a b : string) :
  String.length (a ++ b) = (String.length a + String.length b)%nat.
Proof. induction a as [|x a IH]; cbn; [reflexivity | now rewrite IH]. Qed.

(** A string made of [c] alone contains nothing else. *)
Lemma times_only (c a : ascii) (n : nat) (d t : string) :
  (d ++ String a t)%string = times (String c "") n -> a = c.
Proof.
  revert n. induction d as [|x d IH]; intros [|n]; cbn; try discriminate.
  - intros E. now injection E.
  - intros E. injection E as _ E. now apply (IH n).
Qed.

Lemma rstrip_keeps (c a : ascii) (d : string) :
  a <> c -> rstrip c (d ++ String a "") = (d ++ String a "")%string.
Proof.
  intros Ha. apply Ascii.eqb_neq in Ha.
  induction d as [|x d IH]; cbn [append rstrip].
  - now rewrite Ha.
  - rewrite IH. destruct d; reflexivity.
Qed.

Lemma rstrip_one (c a : ascii) (d : string) :
  a <> c ->
  rstrip c ((d ++ String a "") ++ String c "") = (d ++ String a "")%string.
Proof.
  intros Ha. apply Ascii.eqb_neq in Ha.
  induction d as [|x d IH]; cbn [append rstrip].
  - now rewrite Ascii.eqb_refl, Ha.
  - rewrite IH. destruct d; reflexivity.
Qed.

(** [dirname] of [d/name] is [d], when [d] ends in something other than a
    slash and [name] has no slash. *)
Lemma dirname_child (d name : string) (a : ascii) :
  a <> "/"%char -> contains "/" name = false ->
  Posixpath.dirname ((d ++ String a "") ++ String "/" name)
  = (d ++ String a "")%string.
Proof.
  intros Ha Hn. unfold Posixpath.dirname.
  rewrite (rfind_last _ _ _ Hn).
  replace (len (d ++ String a "") + 1)
    with (len ((d ++ String a "") ++ String "/" "")).
  2:{ unfold len. rewrite (length_append (d ++ String a "")). cbn. lia. }
  replace ((d ++ String a "") ++ String "/" name)%string
    with (((d ++ String a "") ++ String "/" "") ++ name)%string.
  2:{ rewrite append_assoc. reflexivity. }
  rewrite slice_to_prefix.
  destruct (negb _ && negb _) eqn:E.
  - now apply rstrip_one.
  - exfalso. apply andb_false_iff in E. destruct E as [E|E];
      apply negb_false_iff, String.eqb_eq in E.
    + destruct d; discriminate.
    + rewrite append_assoc in E. apply times_only in E. contradiction.
Qed.

(** A component ends in something other than a slash. *)
Lemma component_last (s : string) :
  Policy.component s ->
  exists s' a, s = (s' ++ String a "")%string /\ a <> "/"%char.
Proof.
  intros [Hne Hs]. induction s as [|x s IH]; [contradiction|].
  cbn [contains] in Hs. apply orb_false_iff in Hs. destruct Hs as [Hx Hs].
  destruct s as [|y s].
  - exists ""%string, x. split; [reflexivity|].
    apply Ascii.eqb_neq in Hx. exact Hx.
  - destruct IH as (s' & a & E & Ha); [discriminate | exact Hs |].
    exists (String x s'), a. split; [cbn; now rewrite E | exact Ha].
Qed.

Lemma dirname_component (d name c : string) :
  Policy.component c -> contains "/" name = false ->
  Posixpath.dirname ((d ++ c) ++ String "/" name) = (d ++ c)%string.
Proof.
  intros Hc Hn. destruct (component_last _ Hc) as (s' & a & -> & Ha).
  rewrite <- append_assoc. now apply dirname_child.
Qed.

(** Three levels up: [dirname] three times on [d/a/b/c]. *)
Lemma dirname_three_levels (d a b c : string) :
  Policy.component d -> Policy.component a -> Policy.component b ->
  contains "/" c = false ->
  forall root,
  Posixpath.dirname (Posixpath.dirname (Posixpath.dirname
    (root ++ d ++ "/" ++ a ++ "/" ++ b ++ "/" ++ c)))
  = (root ++ d)%string.
Proof.
  intros Hd Ha Hb Hc root.
  replace (root ++ d ++ "/" ++ a ++ "/" ++ b ++ "/" ++ c)%string
    with (((root ++ d ++ "/" ++ a ++ "/") ++ b) ++ String "/" c)%string.
  2:{ rewrite !append_assoc. reflexivity. }
  rewrite (dirname_component _ _ _ Hb Hc).
  replace ((root ++ d ++ "/" ++ a ++ "/") ++ b)%string
    with (((root ++ d ++ "/") ++ a) ++ String "/" b)%string.
  2:{ rewrite !append_assoc. reflexivity. }
  rewrite (dirname_component _ _ _ Ha (proj2 Hb)).
  replace ((root ++ d ++ "/") ++ a)%string
    with ((root ++ d) ++ String "/" a)%string.
  2:{ rewrite !append_assoc. reflexivity. }
  apply (dirname_component _ _ _ Hd (proj2 Ha)).
Qed.

(** ** [pathlib] *)

Lemma split_pieces_plain (c : ascii) (x : string) :
  contains c x = false -> split_pieces c x = (x, []).
Proof.
  induction x as [|a x IH]; cbn [split_pieces contains]; [reflexivity|].
  intros H. apply orb_false_iff in H. destruct H as [Ha Hx].
  rewrite (IH Hx), Ha. reflexivity.
Qed.

Lemma split_pieces_app (c : ascii) (x t : string) :
  contains c x = false ->
  split_pieces c (x ++ String c t) = (x, split c t).
Proof.
  unfold split.
  induction x as [|a x IH]; cbn [append split_pieces contains].
  - intros _. rewrite Ascii.eqb_refl. now destruct (split_pieces c t).
  - intros H. apply orb_false_iff in H. destruct H as [Ha Hx].
    rewrite (IH Hx), Ha. now destruct (split_pieces c t).
Qed.

(** Splitting what [join] put together gives the parts back. *)
Lemma split_join (c : ascii) (l : list string) :
  l <> [] -> Forall (fun x => contains c x = false) l ->
  split c (join (String c "") l) = l.
Proof.
  intros Hne Hl. induction Hl as [|x l Hx Hl IH]; [contradiction|].
  destruct l as [|y l].
  - cbn [join]. unfold split. now rewrite split_pieces_plain.
  - change (join (String c "") (x :: y :: l))
      with (x ++ String c (join (String c "") (y :: l)))%string.
    unfold split at 1. rewrite (split_pieces_app _ _ _ Hx).
    rewrite IH; [reflexivity | discriminate].
Qed.

Lemma join_snoc (sep : string) (l : list string) (x : string) :
  l <> [] -> join sep (l ++ [x]) = (join sep l ++ sep ++ x)%string.
Proof.
  intros Hne. induction l as [|y l IH]; [contradiction|].
  destruct l as [|z l].
  - reflexivity.
  - change (join sep ((y :: z :: l) ++ [x]))
      with (y ++ sep ++ join sep ((z :: l) ++ [x]))%string.
    rewrite IH by discriminate.
    change (join sep (y :: z :: l)) with (y ++ sep ++ join sep (z :: l))%string.
    now rewrite !append_assoc.
Qed.

Lemma lstrip_stops (c a : ascii) (s : string) :
  a <> c -> lstrip c (String a s) = String a s.
Proof.
  intros H. apply Ascii.eqb_neq in H. cbn. now rewrite H.
Qed.

Lemma component_first (s : string) :
  Policy.component s ->
  exists a s', s = String a s' /\ a <> "/"%char.
Proof.
  intros [Hne Hs]. destruct s as [|a s]; [contradiction|].
  cbn in Hs. apply orb_false_iff in Hs. destruct Hs as [Ha _].
  exists a, s. split; [reflexivity | now apply Ascii.eqb_neq].
Qed.

Lemma filter_all {A} (f : A -> bool) (l : list A) :
  Forall (fun x => f x = true) l -> filter f l = l.
Proof.
  induction 1 as [|x l Hx _ IH]; cbn; [reflexivity|]. now rewrite Hx, IH.
Qed.

Lemma join_first (l : list string) :
  l <> [] -> Forall Policy.file_name l ->
  exists a s', join "/" l = String a s' /\ a <> "/"%char.
Proof.
  intros Hne Hl. destruct Hl as [|x l Hx Hl]; [contradiction|].
  destruct (component_first x (proj1 Hx)) as (a & s' & -> & Ha).
  destruct l as [|y l].
  - exists a, s'. split; [reflexivity | exact Ha].
  - exists a, (s' ++ "/" ++ join "/" (y :: l))%string.
    split; [reflexivity | exact Ha].
Qed.

(** An absolute path of plain names parses into its names. *)
Lemma Path_absolute (l : list string) :
  l <> [] -> Forall Policy.file_name l ->
  Pathlib.Path ("/" ++ join "/" l) = Pathlib.mkpath "/" l.
Proof.
  intros Hne Hl.
  destruct (join_first l Hne Hl) as (a & s' & Ej & Ha).
  unfold Pathlib.Path, Pathlib.splitroot.
  assert (Hs : startswith ("/" ++ join "/" l) "/" = true)
    by (rewrite Ej; reflexivity).
  rewrite Hs.
  assert (Els : lstrip "/" ("/" ++ join "/" l) = join "/" l).
  { cbn [append lstrip]. rewrite Ascii.eqb_refl, Ej. now apply lstrip_stops. }
  rewrite Els.
  assert (Hlen : (len ("/" ++ join "/" l) - len (join "/" l) =? 2) = false).
  { apply Z.eqb_neq. unfold len. cbn [append String.length]. lia. }
  rewrite Hlen.
  rewrite split_join.
  - rewrite filter_all; [reflexivity|].
    eapply Forall_impl; [|exact Hl]. intros x [[Hx1 _] Hx2].
    apply andb_true_iff.
    split; apply negb_true_iff, String.eqb_neq; assumption.
  - exact Hne.
  - eapply Forall_impl; [|exact Hl]. intros x Hx. apply Hx.
Qed.

(** The parent of [/d1/.../dn/name] is [/d1/.../dn]. *)
Lemma parent_is_directory (dirs : list string) (name : string) :
  dirs <> [] -> Forall Policy.file_name dirs -> Policy.file_name name ->
  Pathlib.fspath (Pathlib.parent
    (Pathlib.Path ("/" ++ join "/" dirs ++ "/" ++ name)))
  = ("/" ++ join "/" dirs)%string.
Proof.
  intros Hne Hd Hn.
  assert (Hall : Forall Policy.file_name (dirs ++ [name])).
  { apply Forall_app. split; [exact Hd | now constructor]. }
  assert (Hne' : (dirs ++ [name])%list <> []).
  { destruct dirs; discriminate. }
  rewrite <- (join_snoc "/" dirs name Hne).
  rewrite (Path_absolute _ Hne' Hall).
  unfold Pathlib.parent. cbn [Pathlib.names Pathlib.root].
  destruct (dirs ++ [name])%list eqn:E; [contradiction|].
  rewrite <- E, removelast_last.
  unfold Pathlib.fspath. cbn [Pathlib.names Pathlib.root]. reflexivity.
Qed.

End PathFacts.

(* ================================================================== *)
(** * Reading the header block of a response *)
(* ================================================================== *)

Section Blocks.
Local Open Scope list_scope.
Import Py HttpServer Policy Shape.
Context {W : World}.

Lemma header_values_app (k : string) (a b : list line) :
  header_values k (a ++ b) = header_values k a ++ header_values k b.
Proof. apply flat_map_app. Qed.

Lemma content_types_app (a b : list line) :
  content_types (a ++ b) = content_types a ++ content_types b.
Proof. apply flat_map_app. Qed.

Lemma count_content_type_app (a b : list line) :
  count_content_type (a ++ b)
  = (count_content_type a + count_content_type b)%nat.
Proof.
  unfold count_content_type. now rewrite filter_app, length_app.
Qed.

(** The primitive sends no [Cache-Control] header. *)
Lemma primitive_has_no_cache_control (pre : list line) :
  forallb primitive_line pre = true ->
  header_values "Cache-Control" pre = [].
Proof.
  unfold header_values.
  induction pre as [|l pre IH]; [reflexivity|].
  cbn [forallb flat_map]. intros H.
  apply andb_true_iff in H. destruct H as [Hl Hpre].
  rewrite (IH Hpre), app_nil_r.
  destruct l as [| k v |]; try discriminate.
  unfold primitive_line, primitive_keyword in Hl. cbn [existsb] in Hl.
  repeat (apply orb_true_iff in Hl; destruct Hl as [Hl|Hl];
          [apply String.eqb_eq in Hl; subst k; reflexivity|]).
  discriminate.
Qed.

(** The [Cache-Control] headers among the injected lines are those of the
    variant's table. *)
Lemma injected_cache_control (v : variant) (p : string) :
  header_values "Cache-Control" (injected v p) = to_values (cache_control v p).
Proof.
  unfold injected, by_extension, cors_headers.
  rewrite !header_values_app.
  destruct v; cbn [header_values flat_map app String.eqb Ascii.eqb Bool.eqb].
  - destruct (cache_control VariantA p); reflexivity.
  - destruct (content_type_added p), (cache_control VariantB p); reflexivity.
Qed.

Lemma injected_count (v : variant) (p : string) :
  count_content_type (injected v p)
  = match v with
    | VariantA => 0%nat
    | VariantB => match content_type_added p with Some _ => 1%nat | None => 0%nat end
    end.
Proof.
  unfold injected, by_extension, cors_headers. rewrite !count_content_type_app.
  destruct v.
  - destruct (cache_control VariantA p); reflexivity.
  - destruct (content_type_added p), (cache_control VariantB p); reflexivity.
Qed.

(** The header blocks of a response: none when [guess_type] raised, one
    otherwise. *)
Lemma blocks_of_response (v : variant) (r : request) :
  match raised (cls_of v) r with
  | Some e =>
      header_blocks (response (cls_of v) r) = []
      /\ exists p, guessed v p = inl e
  | None =>
      exists code msg pre,
        header_blocks (response (cls_of v) r)
        = [StatusLine code msg :: pre
           ++ injected v (effective_path v r) ++ [BlankLine]]
        /\ forallb primitive_line pre = true
        /\ count_content_type pre
           = (if (code =? 301) || (code =? 304) then 0%nat else 1%nat)
  end.
Proof.
  destruct (response_shape v r) as [_ S].
  destruct (raised (cls_of v) r) as [e|].
  - destruct S as [-> P]. split; [reflexivity | exact P].
  - destruct S as (code & msg & pre & body & -> & Hp & Hc & Hb).
    exists code, msg, pre. repeat split; try assumption.
    destruct Hb as [->|[b ->]]; reflexivity.
Qed.

Lemma block_of_response (v : variant) (r : request) (ls : list line) :
  In ls (header_blocks (response (cls_of v) r)) ->
  exists code msg pre,
    ls = StatusLine code msg :: pre
         ++ injected v (effective_path v r) ++ [BlankLine]
    /\ forallb primitive_line pre = true
    /\ count_content_type pre
       = (if (code =? 301) || (code =? 304) then 0%nat else 1%nat).
Proof.
  intros Hin. pose proof (blocks_of_response v r) as S.
  destruct (raised (cls_of v) r) as [e|].
  - destruct S as [E _]. rewrite E in Hin. contradiction.
  - destruct S as (code & msg & pre & E & Hp & Hc). rewrite E in Hin.
    destruct Hin as [<-|[]]. exists code, msg, pre. repeat split; assumption.
Qed.

(** Variant B's [guess_type] cannot raise; Variant A's raises what the
    unpacking of the generic result raises. *)
Lemma guessed_B_total (p : string) (e : exn) : guessed VariantB p <> inl e.
Proof. discriminate. Qed.

Lemma guessed_A_raises (p : string) (e : exn) :
  guessed VariantA p = inl e -> unpack2 (generic_guess_type p) = inl e.
Proof.
  unfold guessed. destruct (unpack2 (generic_guess_type p)) as [e'|[m enc]].
  - now intros [= ->].
  - discriminate.
Qed.

End Blocks.

(* ================================================================== *)
(** * The claims about request handling *)
(* ================================================================== *)

Section RequestClaims.
Local Open Scope list_scope.
Import Py HttpServer Policy Shape.
Import DevServer PwaServer.

(** In both variants [end_headers] buffers the three CORS headers behind
    whatever the primitive has buffered and before the blank line that
    finalizes the block, for every handler state.  Hence every header
    block that is written is: the status line, the primitive's headers,
    the three CORS headers, the headers chosen by extension, the blank
    line.  Variant B writes exactly one such block for every request;
    Variant A writes none when its [guess_type] raises while unpacking the
    generic result. *)
Lemma cors_headers_on_every_block (W : World) (v : variant) (r : request) :
  (forall h,
      end_headers (methods_of v) h
      = (finalized (cors_headers ++ by_extension v (path h)) h, inr tt))
  /\ (forall ls,
        In ls (header_blocks (response (cls_of v) r)) ->
        exists code msg pre rest,
          ls = StatusLine code msg :: pre ++ cors_headers ++ rest ++ [BlankLine]
          /\ forallb primitive_line pre = true)
  /\ (raised (cls_of v) r = None ->
      exists ls, header_blocks (response (cls_of v) r) = [ls])
  /\ (forall e, raised (cls_of v) r = Some e ->
        v = VariantA /\ exists p, unpack2 (generic_guess_type p) = inl e).
Proof.
  split; [|split; [|split]].
  - intros h. apply end_headers_eq.
  - intros ls Hin.
    destruct (block_of_response v r ls Hin) as (code & msg & pre & -> & Hp & _).
    exists code, msg, pre, (by_extension v (effective_path v r)).
    split; [|exact Hp]. unfold injected. now rewrite <- !app_assoc.
  - intros Hr. pose proof (blocks_of_response v r) as S. rewrite Hr in S.
    destruct S as (code & msg & pre & E & _). eauto.
  - intros e Hr. pose proof (blocks_of_response v r) as S. rewrite Hr in S.
    destruct S as [_ [p Hp]]. destruct v.
    + split; [reflexivity|]. exists p. now apply guessed_A_raises.
    + discriminate.
Qed.

(** C2, as stated, fails: Variant B answers [GET /] with
    [Cache-Control: no-cache], whereas its table gives no header for the
    path [/]. *)
Lemma cache_control_root_counterexample :
  ~ cache_table_on_request_path (W := Demo.world) VariantB (Demo.GET "/").
Proof.
  unfold cache_table_on_request_path. intros H.
  assert (Hin : In Demo.root_block
                  (header_blocks (response (W := Demo.world)
                                    (cls_of (W := Demo.world) VariantB)
                                    (Demo.GET "/"))))
    by (vm_compute; left; reflexivity).
  specialize (H Demo.root_block Hin).
  vm_compute in H. discriminate H.
Qed.

(** C2, amended.  The [Cache-Control] headers of every header block
    written are those the variant's table gives for the path the handler
    holds when the headers are finalized: the request target, except for
    a [GET] of exactly [/] in Variant B, where it is [/main.html]. *)
Theorem cache_control_follows_handler_path
  (W : World) (v : variant) (r : request) (ls : list line) :
  In ls (header_blocks (response (cls_of v) r)) ->
  header_values "Cache-Control" ls
  = to_values (cache_control v (effective_path v r)).
Proof.
  intros Hin.
  destruct (block_of_response v r ls Hin) as (code & msg & pre & -> & Hp & _).
  change (StatusLine code msg :: pre ++ injected v (effective_path v r) ++ [BlankLine])
    with ([StatusLine code msg] ++ pre ++ injected v (effective_path v r) ++ [BlankLine]).
  rewrite !header_values_app, (primitive_has_no_cache_control pre Hp).
  rewrite injected_cache_control. cbn. now rewrite app_nil_r.
Qed.

Lemma cache_control_follows_handler_path_witness :
  In Demo.root_block
     (header_blocks (response (W := Demo.world)
                              (cls_of (W := Demo.world) VariantB) (Demo.GET "/")))
  /\ header_values "Cache-Control" Demo.root_block
     = to_values (cache_control VariantB "/main.html").
Proof.
  assert (Hin : In Demo.root_block
                  (header_blocks (response (W := Demo.world)
                                    (cls_of (W := Demo.world) VariantB)
                                    (Demo.GET "/"))))
    by (vm_compute; left; reflexivity).
  split; [exact Hin|].
  exact (cache_control_follows_handler_path Demo.world VariantB (Demo.GET "/")
           Demo.root_block Hin).
Defined.

(** C1, as stated, fails: Variant B has no entry for [.ts]; the only
    [Content-Type] of its answer to [GET /lib.ts] is the generic one. *)
Lemma mime_table_ts_counterexample :
  ~ mime_table_decides (W := Demo.world) VariantB (Demo.GET "/lib.ts").
Proof.
  unfold mime_table_decides. intros H.
  assert (Ht : mime_override VariantB (r_target (Demo.GET "/lib.ts"))
               = Some "application/typescript"%string)
    by (vm_compute; reflexivity).
  assert (Hin : In Demo.typescript_block
                  (header_blocks (response (W := Demo.world)
                                    (cls_of (W := Demo.world) VariantB)
                                    (Demo.GET "/lib.ts"))))
    by (vm_compute; left; reflexivity).
  specialize (H _ Demo.typescript_block Ht Hin).
  vm_compute in H. discriminate H.
Qed.

(** C8, as stated, fails: a [304 Not Modified] answer of Variant B to a
    request for [/app.js] carries one [Content-Type] header, the added
    one, since the primitive sends none with that status. *)
Lemma two_content_types_counterexample :
  ~ two_content_types (W := Demo.world) (Demo.conditional_GET "/app.js").
Proof.
  unfold two_content_types. intros H.
  assert (Hext : (endswith (r_target (Demo.conditional_GET "/app.js")) ".js"
                  || endswith (r_target (Demo.conditional_GET "/app.js")) ".json"
                  || endswith (r_target (Demo.conditional_GET "/app.js")) ".svg")
                 = true)
    by (vm_compute; reflexivity).
  assert (Hin : In Demo.not_modified_block
                  (header_blocks (response (W := Demo.world)
                                    (cls_of (W := Demo.world) VariantB)
                                    (Demo.conditional_GET "/app.js"))))
    by (vm_compute; left; reflexivity).
  specialize (H Demo.not_modified_block Hext Hin).
  vm_compute in H. discriminate H.
Qed.

(** C8, amended.  In Variant B every header block written for a target
    ending in [.js], [.json] or [.svg] keeps the primitive's headers as
    they were and has, behind them and the CORS headers, the
    [Content-Type] header of [end_headers]; the generic lookup is the
    inherited one.  The block therefore has one [Content-Type] header more
    than the primitive sent: two, except in a 301 or a 304 answer, for which
    the primitive sends none and the block has one. *)
Theorem content_type_added_not_replaced
  (W : World) (r : request) (ls : list line) :
  (endswith (r_target r) ".js" || endswith (r_target r) ".json"
   || endswith (r_target r) ".svg") = true ->
  In ls (header_blocks (response (cls_of VariantB) r)) ->
  exists code msg pre t rest,
    ls = StatusLine code msg :: pre ++ cors_headers
         ++ [Header "Content-Type" (PStr t)] ++ rest
    /\ content_type_added (r_target r) = Some t
    /\ forallb primitive_line pre = true
    /\ count_content_type ls = S (count_content_type pre)
    /\ count_content_type ls
       = (if (code =? 301) || (code =? 304) then 1%nat else 2%nat)
    /\ guess_type (methods_of VariantB) = Simple_guess_type.
Proof.
  intros Hext Hin.
  destruct (block_of_response VariantB r ls Hin)
    as (code & msg & pre & -> & Hp & Hc).
  assert (Hpath : effective_path VariantB r = r_target r).
  { unfold effective_path.
    destruct (r_target r =? "/")%string eqn:E; [|now rewrite andb_false_r].
    apply String.eqb_eq in E. rewrite E in Hext. discriminate Hext. }
  rewrite Hpath in *.
  assert (Ht : exists t, content_type_added (r_target r) = Some t).
  { unfold content_type_added.
    destruct (endswith (r_target r) ".json"); [eauto|].
    destruct (endswith (r_target r) ".js"); [eauto|].
    destruct (endswith (r_target r) ".svg"); [eauto | discriminate]. }
  destruct Ht as [t Ht].
  assert (Hcount : count_content_type
                     (StatusLine code msg
                      :: pre ++ injected VariantB (r_target r) ++ [BlankLine])
                   = S (count_content_type pre)).
  { change (StatusLine code msg
            :: pre ++ injected VariantB (r_target r) ++ [BlankLine])
      with ([StatusLine code msg]
            ++ pre ++ injected VariantB (r_target r) ++ [BlankLine]).
    rewrite !count_content_type_app, injected_count, Ht. cbn. lia. }
  exists code, msg, pre, t.
  exists (header_of "Cache-Control" (cache_control VariantB (r_target r))
          ++ [BlankLine]).
  repeat split; try assumption.
  - unfold injected, by_extension. rewrite Ht. cbn [header_of]. now rewrite <- !app_assoc.
  - rewrite Hcount, Hc. now destruct ((code =? 301) || (code =? 304)).
Qed.

Lemma content_type_added_not_replaced_witness :
  In Demo.script_block
     (header_blocks (response (W := Demo.world)
                              (cls_of (W := Demo.world) VariantB)
                              (Demo.GET "/app.js")))
  /\ exists pre,
       count_content_type Demo.script_block = S (count_content_type pre)
       /\ count_content_type Demo.script_block = 2%nat.
Proof.
  assert (Hext : (endswith (r_target (Demo.GET "/app.js")) ".js"
                  || endswith (r_target (Demo.GET "/app.js")) ".json"
                  || endswith (r_target (Demo.GET "/app.js")) ".svg") = true)
    by (vm_compute; reflexivity).
  assert (Hin : In Demo.script_block
                  (header_blocks (response (W := Demo.world)
                                    (cls_of (W := Demo.world) VariantB)
                                    (Demo.GET "/app.js"))))
    by (vm_compute; left; reflexivity).
  split; [exact Hin|].
  destruct (content_type_added_not_replaced Demo.world (Demo.GET "/app.js")
              Demo.script_block Hext Hin)
    as (code & msg & pre & t & rest & _ & _ & _ & Hc & _).
  exists pre. split; [exact Hc | vm_compute; reflexivity].
Defined.

(** C10, as stated, fails: a query string that itself ends in a listed
    extension makes the rule match.  Variant B answers
    [GET /main.html?next=/app.js] with the headers of a [.js] path. *)
Lemma query_string_counterexample :
  ~ query_disables_rules (W := Demo.world) VariantB
      (Demo.GET "/main.html?next=/app.js").
Proof.
  unfold query_disables_rules. intros H.
  assert (Hq : contains "?" (r_target (Demo.GET "/main.html?next=/app.js")) = true)
    by (vm_compute; reflexivity).
  assert (Hin : In Demo.query_block
                  (header_blocks (response (W := Demo.world)
                                    (cls_of (W := Demo.world) VariantB)
                                    (Demo.GET "/main.html?next=/app.js"))))
    by (vm_compute; left; reflexivity).
  destruct (H Demo.query_block Hq Hin) as [Hcc _].
  vm_compute in Hcc. discriminate Hcc.
Qed.

Lemma injected_across_query (v : variant) (p q : string) :
  injected v (p ++ "?" ++ q) = injected v q.
Proof.
  change (p ++ "?" ++ q)%string with (p ++ String "?" q)%string.
  unfold injected, by_extension, cache_control, content_type_added.
  rewrite !(endswith_across "?" p q) by reflexivity.
  reflexivity.
Qed.

Lemma injected_unlisted (v : variant) (q : string) :
  endswith_any q listed_extensions = false -> injected v q = cors_headers.
Proof.
  unfold endswith_any, listed_extensions. cbn [existsb]. intros H.
  repeat (apply orb_false_iff in H; destruct H as [? H]).
  unfold injected, by_extension, cache_control, content_type_added.
  destruct v;
    repeat match goal with E : endswith q _ = false |- _ => rewrite E; clear E end;
    reflexivity.
Qed.

(** C10, amended.  The extension rules of both variants test the whole
    request target, query string included.  For a target [p?q] they are
    therefore decided by the query string [q] alone: [end_headers] buffers
    what it would buffer for the path [q].  When [q] ends in none of the
    listed extensions (as in [/app.js?v=1]) only the CORS headers are added:
    no [Cache-Control], and in Variant B no [Content-Type]; when [q] ends in
    one, that rule applies.  In both cases the file resolved is that of
    [p]. *)
Theorem query_string_decides_headers
  (W : World) (v : variant) (p q : string) (h : handler) :
  path h = (p ++ "?" ++ q)%string ->
  end_headers (methods_of v) h = (finalized (injected v q) h, inr tt)
  /\ (endswith_any q listed_extensions = false ->
      end_headers (methods_of v) h = (finalized cors_headers h, inr tt))
  /\ (contains "?" p = false -> translate_path (path h) = translate_path p).
Proof.
  intros Hp. rewrite end_headers_eq, Hp, injected_across_query.
  split; [reflexivity | split].
  - intros Hq. now rewrite (injected_unlisted v q Hq).
  - intros Hc. unfold translate_path.
    change (p ++ "?" ++ q)%string with (p ++ String "?" q)%string.
    now rewrite (before_first_app "?" p q Hc), (before_first_none "?" p Hc).
Qed.

Lemma query_string_decides_headers_witness :
  end_headers (methods_of (W := Demo.world) VariantA)
              (new_handler (Demo.GET "/app.js?v=1"))
  = (finalized cors_headers (new_handler (Demo.GET "/app.js?v=1")), inr tt)
  /\ translate_path (W := Demo.world)
                    (path (new_handler (Demo.GET "/app.js?v=1")))
     = translate_path (W := Demo.world) "/app.js".
Proof.
  assert (Hp : path (new_handler (Demo.GET "/app.js?v=1"))
               = ("/app.js" ++ "?" ++ "v=1")%string)
    by (vm_compute; reflexivity).
  assert (Hq : endswith_any "v=1" listed_extensions = false)
    by (vm_compute; reflexivity).
  assert (Hc : contains "?" "/app.js" = false) by (vm_compute; reflexivity).
  destruct (query_string_decides_headers Demo.world VariantA
              "/app.js" "v=1" (new_handler (Demo.GET "/app.js?v=1")) Hp)
    as (_ & Hrule & Hfile).
  split; [exact (Hrule Hq) | exact (Hfile Hc)].
Defined.

Lemma raised_B_none (W : World) (r : request) :
  raised (cls_of VariantB) r = None.
Proof.
  pose proof (blocks_of_response VariantB r) as S.
  destruct (raised (cls_of VariantB) r) as [e|]; [|reflexivity].
  destruct S as [_ [p Hp]]. discriminate Hp.
Qed.

(** X1.  Variant A's [guess_type] raises whenever the generic lookup
    returns a [str] of a length other than two, as CPython's does for every
    MIME type: the string cannot be unpacked into two names. *)
Lemma Custom_guess_type_raises_on_str
  (W : World) (p s : string) (h : handler) :
  generic_guess_type p = PStr s ->
  String.length s <> 2%nat ->
  exists msg,
    CustomHTTPRequestHandler.guess_type p h = (h, inl (ValueError msg)).
Proof.
  intros Hg Hs.
  unfold CustomHTTPRequestHandler.guess_type, Simple_guess_type, bind, ret, lift.
  rewrite Hg. unfold unpack2.
  destruct s as [|a [|b [|c s]]]; cbn [chars unpack_items raise];
    try (eexists; reflexivity).
  cbn in Hs. contradiction.
Qed.

(** With the generic lookup of the standard library, Variant A answers a
    request for a file with nothing: [guess_type] raises before the
    status line is buffered. *)
Example custom_file_request_raises :
  serve (W := Demo.world) (cls_of (W := Demo.world) VariantA) (Demo.GET "/app.js")
  = (new_handler (Demo.GET "/app.js"),
     inl (ValueError "too many values to unpack (expected 2)")).
Proof. vm_compute. reflexivity. Qed.

(** Variant A does answer [/] and [/main.html] differently: with a generic
    lookup that returns pairs, the one is the listing of the directory and
    the other the file. *)
Example custom_root_is_not_main_html :
  response (W := Demo.pair_world) (cls_of (W := Demo.pair_world) VariantA) (Demo.GET "/")
  <> response (W := Demo.pair_world) (cls_of (W := Demo.pair_world) VariantA) (Demo.GET "/main.html").
Proof. vm_compute. discriminate. Qed.

(** C9.  In Variant B a request for [/] with a method other than [GET] is
    handled as the class without the [do_GET] override handles it, and
    the handler's path stays [/]: [HEAD /] goes to the primitive's
    [do_HEAD] with the handler as built from the request.  Only for [GET]
    is the path [/main.html] in the end. *)
Theorem root_rewrite_only_for_GET
  (W : World) (m : string) (hs : list (string * string)) :
  m <> "GET"%string ->
  serve (cls_of VariantB) (mkrequest m "/" hs)
  = serve inherited_cls (mkrequest m "/" hs)
  /\ final_path (cls_of VariantB) (mkrequest m "/" hs) = "/"%string
  /\ (m = "HEAD"%string ->
      serve (cls_of VariantB) (mkrequest m "/" hs)
      = Simple_do_HEAD (methods_of VariantB) (new_handler (mkrequest m "/" hs)))
  /\ final_path (cls_of VariantB) (mkrequest "GET" "/" hs) = "/main.html"%string.
Proof.
  intros Hm. apply String.eqb_neq in Hm.
  split; [|split; [|split]].
  - unfold serve, handle_one_request, bind, get. cbn [command new_handler r_method].
    unfold lookup_do. rewrite Hm. reflexivity.
  - rewrite (proj1 (response_shape VariantB (mkrequest m "/" hs))).
    unfold effective_path. cbn [r_method r_target]. now rewrite Hm.
  - intros ->. reflexivity.
  - exact (proj1 (response_shape VariantB (mkrequest "GET" "/" hs))).
Qed.

Lemma root_rewrite_only_for_GET_witness :
  "HEAD"%string <> "GET"%string
  /\ final_path (W := Demo.world) (cls_of (W := Demo.world) VariantB)
                (Demo.HEAD "/") = "/"%string.
Proof.
  assert (Hm : "HEAD"%string <> "GET"%string) by discriminate.
  destruct (root_rewrite_only_for_GET Demo.world "HEAD" [] Hm) as (_ & Hp & _).
  split; [exact Hm | exact Hp].
Defined.

(** [HEAD /] and [HEAD /main.html] are answered differently by Variant B:
    the one with the listing of the directory, the other with the file. *)
Example pwa_head_root_is_not_main_html :
  response (W := Demo.world) (cls_of (W := Demo.world) VariantB) (Demo.HEAD "/")
  <> response (W := Demo.world) (cls_of (W := Demo.world) VariantB)
              (Demo.HEAD "/main.html").
Proof. vm_compute. discriminate. Qed.

End RequestClaims.

(* ================================================================== *)
(** * The claims about start-up and shutdown *)
(* ================================================================== *)

Section ProcessClaims.
Import Py Policy Process.
Local Open Scope list_scope.

(** Evaluation of a run, leaving the texts and the error number alone. *)
Ltac evaluate :=
  cbv -[Z.eqb str_of_int str_of_exn String.append times newline ends_with].

Ltac suffix_of n :=
  match goal with
  | |- ends_with ?t _ =>
      exists (firstn (List.length t - n) t); reflexivity
  end.

(** Either script, whatever happens at start-up and afterwards, changes
    directory first and once. *)
Lemma chdir_first_and_once (v : variant) (E : env) :
  exists rest,
    trace (fst (run v E)) = Chdir (base_directory v (script_file E)) :: rest
    /\ chdirs rest = []
    /\ cwd (fst (run v E)) = base_directory v (script_file E).
Proof.
  destruct E as [file be se]. unfold run, base_directory. cbn [script_file].
  destruct v; unfold main_of, DevServer.main, PwaServer.main; cbn [script_file].
  - generalize (Posixpath.dirname (Posixpath.dirname (Posixpath.dirname file))).
    intros d.
    destruct be as [[| c | n s | m | m | m]|]; [..|destruct se as [[| c | n s | m | m | m]|]];
      evaluate; eexists; repeat split.
  - generalize (Pathlib.fspath (Pathlib.parent (Pathlib.Path file))).
    intros d.
    destruct be as [[| c | n s | m | m | m]|]; [..|destruct se as [[| c | n s | m | m | m]|]];
      evaluate; try destruct (n =? 48); eexists; repeat split.
Qed.

(** C7.  The first action of either script is the change of directory,
    before the listener is created (the [Bind] event, when there is one,
    comes later in the trace), and no other change of directory follows in
    any run, so the working directory stays what start-up made it.
    Variant A changes to [dirname(dirname(dirname(__file__)))], which for a
    script at [root/d/a/b/c] is [root/d], three levels up from the file;
    Variant B changes to [Path(__file__).parent], which for a script at
    [/d1/.../dn/name] is [/d1/.../dn], the directory of the script. *)
Theorem working_directory_set_at_startup (v : variant) (E : env) :
  (exists rest,
      trace (fst (run v E)) = Chdir (base_directory v (script_file E)) :: rest
      /\ chdirs rest = []
      /\ cwd (fst (run v E)) = base_directory v (script_file E))
  /\ (forall root d a b c,
        component d -> component a -> component b -> contains "/" c = false ->
        script_file E = (root ++ d ++ "/" ++ a ++ "/" ++ b ++ "/" ++ c)%string ->
        base_directory VariantA (script_file E) = (root ++ d)%string)
  /\ (forall dirs name,
        dirs <> [] -> Forall file_name dirs -> file_name name ->
        script_file E = ("/" ++ join "/" dirs ++ "/" ++ name)%string ->
        base_directory VariantB (script_file E) = ("/" ++ join "/" dirs)%string).
Proof.
  split; [apply chdir_first_and_once | split].
  - intros root d a b c Hd Ha Hb Hc ->.
    now apply dirname_three_levels.
  - intros dirs name Hne Hds Hn ->.
    now apply parent_is_directory.
Qed.

Lemma working_directory_set_at_startup_witness :
  base_directory VariantA "/repo/dev/tools/server.py" = "/repo"%string
  /\ base_directory VariantB "/repo/app/server.py" = "/repo/app"%string.
Proof.
  destruct (working_directory_set_at_startup VariantA
              (Demo.interrupted "/repo/dev/tools/server.py")) as (_ & HA & _).
  destruct (working_directory_set_at_startup VariantB
              (Demo.interrupted "/repo/app/server.py")) as (_ & _ & HB).
  split.
  - apply (HA "/"%string "repo"%string "dev"%string "tools"%string
              "server.py"%string);
      try (split; [discriminate | reflexivity]); reflexivity.
  - apply (HB ["repo"%string; "app"%string] "server.py"%string).
    + discriminate.
    + repeat constructor; discriminate.
    + repeat constructor; discriminate.
    + reflexivity.
Defined.

(** C6.  In both variants, when [serve_forever] is ended by the operator's
    interrupt, the run ends with: the serve loop left, the server closed,
    the message that the server has stopped printed; and the exit status
    is 0 (Variant A by [sys.exit(0)], Variant B by returning from
    [main]). *)
Theorem interrupt_shuts_down_cleanly (v : variant) (E : env) :
  bind_error E = None ->
  serve_error E = Some KeyboardInterrupt ->
  ends_with (trace (fst (run v E)))
            [ServeForever; ServerClose; Printed (newline ++ "服务器已停止")]
  /\ exit_status (snd (run v E)) = Some 0.
Proof.
  destruct E as [file be se]. cbn [bind_error serve_error]. intros -> ->.
  unfold run.
  destruct v; unfold main_of, DevServer.main, PwaServer.main; cbn [script_file].
  - generalize (Posixpath.dirname (Posixpath.dirname (Posixpath.dirname file))).
    intros d. evaluate. split; [suffix_of 3%nat | reflexivity].
  - generalize (Pathlib.fspath (Pathlib.parent (Pathlib.Path file))).
    intros d. evaluate. split; [suffix_of 3%nat | reflexivity].
Qed.

Lemma interrupt_shuts_down_cleanly_witness :
  ends_with (trace (fst (run VariantA (Demo.interrupted "/repo/dev/tools/server.py"))))
            [ServeForever; ServerClose; Printed (newline ++ "服务器已停止")]
  /\ exit_status (snd (run VariantA (Demo.interrupted "/repo/dev/tools/server.py")))
     = Some 0
  /\ exit_status (snd (run VariantB (Demo.interrupted "/repo/server.py")))
     = Some 0.
Proof.
  destruct (interrupt_shuts_down_cleanly VariantA
              (Demo.interrupted "/repo/dev/tools/server.py") eq_refl eq_refl)
    as [Ht Hs].
  destruct (interrupt_shuts_down_cleanly VariantB
              (Demo.interrupted "/repo/server.py") eq_refl eq_refl)
    as [_ Hs'].
  repeat split; assumption.
Defined.




End ProcessClaims.

(* ================================================================== *)
(** * Further facts about the extension rules *)
(* ================================================================== *)

Section ExtensionFacts.
Import Py HttpServer Policy Shape.
Import DevServer PwaServer.
Local Open Scope list_scope.

Lemma append_last_inj (a b : string) (c d : ascii) :
  (a ++ String c "")%string = (b ++ String d "")%string -> c = d.
Proof.
  revert b. induction a as [|x a IH]; intros [|y b]; cbn [append]; intros E.
  - now injection E.
  - injection E as _ E. destruct b; discriminate E.
  - injection E as _ E. destruct a; discriminate E.
  - injection E as _ E. now apply (IH b).
Qed.

(** A suffix ends with the last character of the string. *)
Lemma endswith_last_char (p s : string) (c d : ascii) :
  endswith (p ++ String c "") (s ++ String d "") = true -> c = d.
Proof.
  intros H. apply endswith_spec in H. destruct H as [q E].
  rewrite <- append_assoc in E. now apply append_last_inj in E.
Qed.

(** Two suffixes of one string: one is a suffix of the other. *)
Lemma suffixes_nest (x y a b : string) :
  (x ++ a)%string = (y ++ b)%string ->
  endswith a b = true \/ endswith b a = true.
Proof.
  revert y. induction x as [|c x IH]; intros y E.
  - left. apply endswith_spec. exists y. exact E.
  - destruct y as [|d y].
    + right. apply endswith_spec. exists (String c x). symmetry. exact E.
    + cbn [append] in E. injection E as _ E. now apply (IH y).
Qed.

Lemma endswith_exclusive (p a b : string) :
  endswith p a = true -> endswith p b = true ->
  endswith a b || endswith b a = true.
Proof.
  intros Ha Hb. apply endswith_spec in Ha, Hb.
  destruct Ha as [x Ex], Hb as [y Ey]. rewrite Ex in Ey.
  apply orb_true_iff. now apply (suffixes_nest x y a b).
Qed.

(** Deciding the other tests from one that holds: no listed extension is
    a suffix of another. *)
Ltac exclude H :=
  repeat match goal with
         | |- context [endswith ?p ?ext] =>
             lazymatch type of H with
             | endswith p ext = true => fail
             | _ => idtac
             end;
             let E := fresh "E" in
             let X := fresh "X" in
             destruct (endswith p ext) eqn:E;
             [ pose proof (endswith_exclusive p _ _ H E) as X;
               vm_compute in X; discriminate X
             | ]
         end.

(** X4.  The tests of [end_headers] are on the last characters of the path
    and are case-sensitive: for an empty path, and for a path whose last
    character is none of [s], [n], [g] and [l] (a directory path ending in a
    slash, a name without extension, an upper-case extension such as [.JS]
    or [.HTML]), either variant adds the three CORS headers and nothing
    else. *)
Theorem only_cors_without_extension_letter
  (W : World) (v : variant) (h : handler) :
  (path h = ""%string
   \/ exists p c, path h = (p ++ String c "")%string
                  /\ c <> "s"%char /\ c <> "n"%char
                  /\ c <> "g"%char /\ c <> "l"%char) ->
  end_headers (methods_of v) h = (finalized cors_headers h, inr tt).
Proof.
  intros H. rewrite end_headers_eq.
  rewrite (injected_unlisted v (path h)); [reflexivity|].
  destruct H as [->|(p & c & -> & Hs & Hn & Hg & Hl)]; [reflexivity|].
  unfold endswith_any, listed_extensions. cbn [existsb].
  repeat match goal with
         | |- context [endswith (p ++ String c "") ?ext] =>
             let E := fresh "E" in
             destruct (endswith (p ++ String c "") ext) eqn:E;
             [ exfalso;
               first [ apply (endswith_last_char p ".j" c "s") in E
                     | apply (endswith_last_char p ".jso" c "n") in E
                     | apply (endswith_last_char p ".sv" c "g") in E
                     | apply (endswith_last_char p ".cs" c "s") in E
                     | apply (endswith_last_char p ".pn" c "g") in E
                     | apply (endswith_last_char p ".jp" c "g") in E
                     | apply (endswith_last_char p ".htm" c "l") in E ];
               congruence
             | ]
         end.
  reflexivity.
Qed.

Lemma only_cors_without_extension_letter_witness :
  end_headers (methods_of (W := Demo.world) VariantB)
              (new_handler (Demo.GET "/APP.JS"))
  = (finalized cors_headers (new_handler (Demo.GET "/APP.JS")), inr tt)
  /\ end_headers (methods_of (W := Demo.world) VariantA)
                 (new_handler (Demo.GET "/assets/"))
     = (finalized cors_headers (new_handler (Demo.GET "/assets/")), inr tt).
Proof.
  split.
  - apply (only_cors_without_extension_letter Demo.world VariantB).
    right. exists "/APP.J"%string, "S"%char.
    repeat split; discriminate.
  - apply (only_cors_without_extension_letter Demo.world VariantA).
    right. exists "/assets"%string, "/"%char.
    repeat split; discriminate.
Defined.

(** X5.  In Variant B at most one of the listed extensions matches a
    path, so the order of the tests in [end_headers] never matters and the
    two chains of tests combine into one table: [.json] gets the
    [Content-Type] and no [Cache-Control]; [.js] and [.svg] get their
    [Content-Type] and the one-year [Cache-Control]; [.css], [.png] and
    [.jpg] get the one-year [Cache-Control] alone; [.html] gets
    [no-cache] alone. *)
Theorem pwa_extension_table (W : World) (h : handler) :
  (endswith (path h) ".json" = true ->
   end_headers (methods_of VariantB) h
   = (finalized (cors_headers
                 ++ [Header "Content-Type" (PStr "application/json")]) h,
      inr tt))
  /\ (endswith (path h) ".js" = true ->
      end_headers (methods_of VariantB) h
      = (finalized (cors_headers
                    ++ [Header "Content-Type" (PStr "application/javascript");
                        Header "Cache-Control" (PStr "public, max-age=31536000")]) h,
         inr tt))
  /\ (endswith (path h) ".svg" = true ->
      end_headers (methods_of VariantB) h
      = (finalized (cors_headers
                    ++ [Header "Content-Type" (PStr "image/svg+xml");
                        Header "Cache-Control" (PStr "public, max-age=31536000")]) h,
         inr tt))
  /\ (endswith (path h) ".css" = true \/ endswith (path h) ".png" = true
      \/ endswith (path h) ".jpg" = true ->
      end_headers (methods_of VariantB) h
      = (finalized (cors_headers
                    ++ [Header "Cache-Control" (PStr "public, max-age=31536000")]) h,
         inr tt))
  /\ (endswith (path h) ".html" = true ->
      end_headers (methods_of VariantB) h
      = (finalized (cors_headers
                    ++ [Header "Cache-Control" (PStr "no-cache")]) h,
         inr tt)).
Proof.
  rewrite end_headers_eq.
  unfold injected, by_extension, content_type_added, cache_control.
  repeat split.
  - intros H. exclude H. now rewrite H.
  - intros H. exclude H. now rewrite H.
  - intros H. exclude H. now rewrite H.
  - intros [H|[H|H]]; exclude H; now rewrite H.
  - intros H. exclude H. now rewrite H.
Qed.

Lemma pwa_extension_table_witness :
  end_headers (methods_of (W := Demo.world) VariantB)
              (new_handler (Demo.GET "/data.json"))
  = (finalized (cors_headers
                ++ [Header "Content-Type" (PStr "application/json")])
               (new_handler (Demo.GET "/data.json")),
     inr tt)
  /\ end_headers (methods_of (W := Demo.world) VariantB)
                 (new_handler (Demo.GET "/style.css"))
     = (finalized (cors_headers
                   ++ [Header "Cache-Control" (PStr "public, max-age=31536000")])
                  (new_handler (Demo.GET "/style.css")),
        inr tt).
Proof.
  destruct (pwa_extension_table Demo.world (new_handler (Demo.GET "/data.json")))
    as (Hjson & _).
  destruct (pwa_extension_table Demo.world (new_handler (Demo.GET "/style.css")))
    as (_ & _ & _ & Hcss & _).
  split.
  - apply Hjson. vm_compute. reflexivity.
  - apply Hcss. left. vm_compute. reflexivity.
Defined.

End ExtensionFacts.

(* ================================================================== *)
(** * Further facts about the two handler classes *)
(* ================================================================== *)

Section HandlerFacts.
Import Py HttpServer Policy Shape.
Import DevServer PwaServer.
Local Open Scope list_scope.

Lemma Custom_guess_type_raises_on_str_witness :
  exists msg,
    CustomHTTPRequestHandler.guess_type (W := Demo.world) "/srv/app.js"
      (new_handler (Demo.GET "/app.js"))
    = (new_handler (Demo.GET "/app.js"), inl (ValueError msg)).
Proof.
  apply (Custom_guess_type_raises_on_str Demo.world "/srv/app.js"
           "text/javascript").
  - vm_compute. reflexivity.
  - vm_compute. discriminate.
Defined.

Lemma unpack2_str_raises (s : string) :
  String.length s <> 2%nat ->
  exists msg, unpack2 (PStr s) = inl (ValueError msg).
Proof.
  intros Hs. unfold unpack2.
  destruct s as [|a [|b [|c s]]]; cbn [chars unpack_items];
    try (eexists; reflexivity).
  cbn in Hs. contradiction.
Qed.

(** X2.  With a generic lookup that returns a [str] of a length other than
    two for every file name, as CPython's does, Variant A answers no [GET]
    or [HEAD] request whose target is not a directory: [guess_type] raises
    [ValueError] before anything is buffered, written or logged, whether
    the file exists or not (not even a 404 is sent). *)
Theorem custom_file_requests_unanswered (W : World) (r : request) :
  (forall p, exists s, generic_guess_type p = PStr s
                       /\ String.length s <> 2%nat) ->
  r_method r = "GET"%string \/ r_method r = "HEAD"%string ->
  isdir (translate_path (r_target r)) = false ->
  exists msg,
    serve (cls_of VariantA) r = (new_handler r, inl (ValueError msg)).
Proof.
  intros Hg Hm Hd.
  destruct (Hg (translate_path (r_target r))) as (s & Hs & Hlen).
  destruct (unpack2_str_raises s Hlen) as [msg Hu].
  exists msg.
  assert (Hguess : guess_type (methods_of VariantA) (translate_path (r_target r))
                              (new_handler r)
                   = (new_handler r, inl (ValueError msg))).
  { rewrite guess_type_eq. unfold guessed. now rewrite Hs, Hu. }
  assert (Hhead : send_head (methods_of VariantA) (new_handler r)
                  = (new_handler r, inl (ValueError msg))).
  { unfold send_head, bind at 1, get at 1. cbn [path new_handler].
    rewrite Hd. unfold send_file_head, bind at 1. now rewrite Hguess. }
  unfold serve, handle_one_request, bind at 1, get at 1.
  cbn [command new_handler]. unfold lookup_do.
  destruct Hm as [Hm|Hm]; rewrite Hm; cbn [String.eqb Ascii.eqb Bool.eqb];
    cbn [cls_of do_GET do_HEAD CustomHTTPRequestHandler.cls];
    unfold Simple_do_GET, Simple_do_HEAD, bind;
    change CustomHTTPRequestHandler.self with (methods_of VariantA);
    now rewrite Hhead.
Qed.

Lemma custom_file_requests_unanswered_witness :
  exists msg,
    serve (W := Demo.world) (cls_of (W := Demo.world) VariantA)
          (Demo.GET "/missing.html")
    = (new_handler (Demo.GET "/missing.html"), inl (ValueError msg)).
Proof.
  apply (custom_file_requests_unanswered Demo.world (Demo.GET "/missing.html")).
  - intros p. exists (Demo.mimetypes p). split; [reflexivity|].
    unfold Demo.mimetypes.
    repeat match goal with
           | |- context [if ?b then _ else _] => destruct b
           end; vm_compute; discriminate.
  - left. reflexivity.
  - vm_compute. reflexivity.
Defined.

Lemma handle_one_request_eq (W : World) (cls : handler_class) (h : handler) :
  handle_one_request cls h
  = match lookup_do cls (command h) with
    | None =>
        send_error (self_methods cls) 501
          (Some ("Unsupported method (" ++ repr_str (command h) ++ ")")%string) h
    | Some method => method h
    end.
Proof.
  unfold handle_one_request, bind, get.
  now destruct (lookup_do cls (command h)).
Qed.

(** X3.  [do_GET] of Variant B rewrites the target [/] and no other: for
    any other target, one that resolves to the same directory included
    (such as [/?v=2]), a request is handled exactly as by the class
    without the override. *)
Theorem pwa_rewrites_only_the_root (W : World) (r : request) :
  r_target r <> "/"%string ->
  serve (cls_of VariantB) r = serve inherited_cls r.
Proof.
  intros Ht. apply String.eqb_neq in Ht.
  unfold serve. rewrite !handle_one_request_eq.
  cbn [command new_handler]. unfold lookup_do.
  destruct (r_method r =? "GET")%string; [|reflexivity].
  cbn [cls_of do_GET PWAHTTPRequestHandler.cls inherited_cls].
  unfold PWAHTTPRequestHandler.do_GET, bind at 1, get at 1.
  cbn [path new_handler]. rewrite Ht. reflexivity.
Qed.

Lemma pwa_rewrites_only_the_root_witness :
  serve (W := Demo.world) (cls_of (W := Demo.world) VariantB) (Demo.GET "/?v=2")
  = serve (W := Demo.world) (inherited_cls (W := Demo.world)) (Demo.GET "/?v=2")
  /\ translate_path (W := Demo.world) "/?v=2"
     = translate_path (W := Demo.world) "/"
  /\ response (W := Demo.world) (cls_of (W := Demo.world) VariantB)
              (Demo.GET "/?v=2")
     <> response (W := Demo.world) (cls_of (W := Demo.world) VariantB)
                 (Demo.GET "/").
Proof.
  split; [|split].
  - apply (pwa_rewrites_only_the_root Demo.world (Demo.GET "/?v=2")).
    discriminate.
  - vm_compute. reflexivity.
  - vm_compute. discriminate.
Defined.

End HandlerFacts.

(* ================================================================== *)
(** * Further facts about start-up and shutdown *)
(* ================================================================== *)

Section ProcessFacts.
Import Py Policy Process.
Local Open Scope list_scope.

Ltac evaluate :=
  cbv -[Z.eqb str_of_int str_of_exn String.append times newline ends_with].

Ltac suffix_of n :=
  match goal with
  | |- ends_with ?t _ =>
      exists (firstn (List.length t - n) t); reflexivity
  end.

(** X7.  An exception that ends [serve_forever] is handled by the same
    clauses as one raised while the server is created, after the server has
    been closed: Variant A reports any [Exception] by the start-up failure
    message and exits with status 1; Variant B does so for an [OSError]
    (with the port-in-use lines when its error number is 48), and lets any
    other exception propagate out of [main]. *)
Theorem serving_failure_report (E : env) (e : exn) :
  bind_error E = None ->
  serve_error E = Some e ->
  (isinstance_Exception e = true ->
     ends_with (trace (fst (run VariantA E)))
               [ServeForever; ServerClose; Printed (failure_message e)]
     /\ exit_status (snd (run VariantA E)) = Some 1)
  /\ (isinstance_OSError e = true -> errno_is e 48 = false ->
      ends_with (trace (fst (run VariantB E)))
                [ServeForever; ServerClose; Printed (failure_message e)]
      /\ exit_status (snd (run VariantB E)) = Some 1)
  /\ (isinstance_OSError e = true -> errno_is e 48 = true ->
      ends_with (trace (fst (run VariantB E)))
        [ServeForever; ServerClose;
         Printed ("错误: 端口 " ++ str_of_int 8080 ++ " 已被占用");
         Printed "请尝试关闭其他使用该端口的程序，或修改PORT变量使用其他端口"]
      /\ exit_status (snd (run VariantB E)) = Some 1)
  /\ (isinstance_Exception e = true -> isinstance_OSError e = false ->
      ends_with (trace (fst (run VariantB E))) [ServeForever; ServerClose]
      /\ snd (run VariantB E) = Raise e).
Proof.
  destruct E as [file be se]. cbn [bind_error serve_error]. intros -> ->.
  unfold run, main_of, DevServer.main, PwaServer.main, failure_message.
  cbn [script_file].
  generalize (Posixpath.dirname (Posixpath.dirname (Posixpath.dirname file))).
  generalize (Pathlib.fspath (Pathlib.parent (Pathlib.Path file))).
  intros dB dA.
  split; [|split; [|split]].
  - destruct e as [| c | n s | m | m | m]; try discriminate; intros _;
      evaluate; (split; [suffix_of 3%nat | reflexivity]).
  - destruct e as [| c | n s | m | m | m]; try discriminate. intros _.
    cbn [errno_is]. intros Hn.
    evaluate. rewrite Hn. evaluate.
    split; [suffix_of 3%nat | reflexivity].
  - destruct e as [| c | n s | m | m | m]; try discriminate. intros _.
    cbn [errno_is]. intros Hn.
    evaluate. rewrite Hn. evaluate.
    split; [suffix_of 4%nat | reflexivity].
  - destruct e as [| c | n s | m | m | m]; try discriminate; intros _ _;
      evaluate; (split; [suffix_of 2%nat | reflexivity]).
Qed.

Lemma serving_failure_report_witness :
  ends_with
    (trace (fst (run VariantA
                   (mkenv "/repo/dev/tools/server.py" None
                          (Some (OSError 9 "Bad file descriptor"))))))
    [ServeForever; ServerClose;
     Printed (failure_message (OSError 9 "Bad file descriptor"))]
  /\ snd (run VariantB
            (mkenv "/repo/server.py" None (Some (RuntimeError "boom"))))
     = Raise (RuntimeError "boom").
Proof.
  destruct (serving_failure_report
              (mkenv "/repo/dev/tools/server.py" None
                     (Some (OSError 9 "Bad file descriptor")))
              (OSError 9 "Bad file descriptor") eq_refl eq_refl)
    as (HA & _).
  destruct (serving_failure_report
              (mkenv "/repo/server.py" None (Some (RuntimeError "boom")))
              (RuntimeError "boom") eq_refl eq_refl)
    as (_ & _ & _ & HB).
  split; [exact (proj1 (HA eq_refl)) | exact (proj2 (HB eq_refl eq_refl))].
Defined.



(** X9.  Variant A prints its line that the server is running only once
    the port is bound, directly after binding and before it starts to
    serve; a run in which the server cannot be created never prints it. *)
Theorem custom_announces_after_binding (E : env) :
  (bind_error E = None ->
   exists before after,
     trace (fst (run VariantA E))
     = before
       ++ [Bind "" 8080;
           Printed ("服务器运行在 http://localhost:" ++ str_of_int 8080);
           ServeForever]
       ++ after)
  /\ (bind_error E <> None ->
      ~ In (Printed ("服务器运行在 http://localhost:" ++ str_of_int 8080))
           (trace (fst (run VariantA E)))).
Proof.
  destruct E as [file be se]. cbn [bind_error].
  unfold run, main_of, DevServer.main. cbn [script_file].
  generalize (Posixpath.dirname (Posixpath.dirname (Posixpath.dirname file))).
  intros d. split.
  - intros ->.
    destruct se as [[| c | n s | m | m | m]|]; evaluate;
      match goal with
      | |- exists before after, ?t = _ =>
          exists (firstn 7 t), (skipn 10 t); reflexivity
      end.
  - intros Hbe. destruct be as [e|]; [|contradiction]. clear Hbe.
    destruct e as [| c | n s | m | m | m];
      cbv -[Z.eqb str_of_int str_of_exn];
      intros H; repeat (destruct H as [H|H]; [discriminate H|]); exact H.
Qed.

Lemma custom_announces_after_binding_witness :
  ~ In (Printed ("服务器运行在 http://localhost:" ++ str_of_int 8080))
       (trace (fst (run VariantA (Demo.port_in_use "/repo/dev/tools/server.py"))))
  /\ exists before after,
       trace (fst (run VariantA (Demo.interrupted "/repo/dev/tools/server.py")))
       = before
         ++ [Bind "" 8080;
             Printed ("服务器运行在 http://localhost:" ++ str_of_int 8080);
             ServeForever]
         ++ after.
Proof.
  split.
  - apply (custom_announces_after_binding
             (Demo.port_in_use "/repo/dev/tools/server.py")).
    discriminate.
  - apply (custom_announces_after_binding
             (Demo.interrupted "/repo/dev/tools/server.py")).
    reflexivity.
Defined.

End ProcessFacts.

(* ================================================================== *)
(** * What a request logs *)
(* ================================================================== *)

Section LogFacts.
Import Py HttpServer Policy Shape Logs.
Local Open Scope list_scope.
Context {W : World}.

Variable self : methods.
Variable extra : string -> list line.
Variable logged : string -> handler -> handler.
Variable guessed : string -> exn + pyobj.
(** what [log_message] appends to each stream *)
Variable outs errs : string -> list string.

Hypothesis end_headers_eq :
  forall h, end_headers self h = (finalized (extra (path h)) h, inr tt).
Hypothesis log_message_eq :
  forall m h, log_message self m h = (logged m h, inr tt).
Hypothesis logged_command : forall m h, command (logged m h) = command h.
Hypothesis logged_path : forall m h, path (logged m h) = path h.
Hypothesis logged_headers : forall m h, headers (logged m h) = headers h.
Hypothesis logged_buffer :
  forall m h, headers_buffer (logged m h) = headers_buffer h.
Hypothesis logged_wfile : forall m h, wfile (logged m h) = wfile h.
Hypothesis logged_requestline :
  forall m h, requestline (logged m h) = requestline h.
Hypothesis logged_stdout :
  forall m h, stdout (logged m h) = stdout h ++ outs m.
Hypothesis logged_stderr :
  forall m h, stderr (logged m h) = stderr h ++ errs m.
Hypothesis guess_type_eq :
  forall p h, guess_type self p h = (h, guessed p).

Ltac simp :=
  cbn [set_buffer set_wfile set_path set_stderr set_stdout finalized
       command path requestline headers headers_buffer wfile stderr stdout
       fst snd app];
  rewrite ?logged_command, ?logged_path, ?logged_headers, ?logged_buffer,
          ?logged_wfile, ?logged_requestline, ?logged_stdout, ?logged_stderr;
  repeat match goal with
         | H : headers_buffer ?h = _ |- _ => rewrite H
         | H : wfile ?h = _ |- _ => rewrite H
         end;
  cbn [app].

Ltac run :=
  repeat (progress (unfold bind, get, modify, ret, raise, lift, write,
                    send_header, send_response_only, flush_headers;
                    cbn beta iota zeta)
          || (rewrite log_message_eq; simp)
          || (rewrite end_headers_eq; simp)
          || (rewrite guess_type_eq; simp)
          || (progress simp)).










End LogFacts.

Section RequestLog.
Import Py HttpServer Policy Shape Logs.
Import DevServer PwaServer.
Local Open Scope list_scope.
Context {W : World}.

Lemma logged_requestline (v : variant) (m : string) (h : handler) :
  requestline (logged v m h) = requestline h.
Proof. destruct v; reflexivity. Qed.

Lemma logged_stdout (v : variant) (m : string) (h : handler) :
  stdout (logged v m h) = stdout h ++ to_stdout v m.
Proof. destruct v; cbn; [now rewrite app_nil_r | reflexivity]. Qed.

Lemma logged_stderr (v : variant) (m : string) (h : handler) :
  stderr (logged v m h) = stderr h ++ to_stderr v m.
Proof. destruct v; cbn; [reflexivity | now rewrite app_nil_r]. Qed.











End RequestLog.

Section RequestLogExamples.
Import Py HttpServer Policy Shape Logs.
Local Open Scope list_scope.


(** The two lines Variant B prints for a file that does not exist. *)
Example pwa_logs_two_lines_for_404 :
  stdout (fst (serve (W := Demo.world) (cls_of (W := Demo.world) VariantB)
                     (Demo.GET "/missing.css")))
  = ["[04/Nov/2026 00:00:00] code 404, message File not found"%string;
     ("[04/Nov/2026 00:00:00] " ++ dquote ++ "GET /missing.css HTTP/1.1"
      ++ dquote ++ " 404 -")%string].
Proof. vm_compute. reflexivity. Qed.

End RequestLogExamples.

(* ================================================================== *)
(** * A request answered with a file *)
(* ================================================================== *)

Section FileFacts.
Import Py HttpServer Policy Shape Served.
Local Open Scope list_scope.
Context {W : World}.

Variable self : methods.
Variable extra : string -> list line.
Variable logged : string -> handler -> handler.
Variable guessed : string -> exn + pyobj.

Hypothesis end_headers_eq :
  forall h, end_headers self h = (finalized (extra (path h)) h, inr tt).
Hypothesis log_message_eq :
  forall m h, log_message self m h = (logged m h, inr tt).
Hypothesis logged_command : forall m h, command (logged m h) = command h.
Hypothesis logged_path : forall m h, path (logged m h) = path h.
Hypothesis logged_headers : forall m h, headers (logged m h) = headers h.
Hypothesis logged_buffer :
  forall m h, headers_buffer (logged m h) = headers_buffer h.
Hypothesis logged_wfile : forall m h, wfile (logged m h) = wfile h.
Hypothesis guess_type_eq :
  forall p h, guess_type self p h = (h, guessed p).

Ltac simp :=
  cbn [set_buffer set_wfile set_path set_stderr set_stdout finalized
       command path requestline headers headers_buffer wfile stderr stdout
       fst snd app];
  rewrite ?logged_command, ?logged_path, ?logged_headers, ?logged_buffer,
          ?logged_wfile;
  repeat match goal with
         | H : headers_buffer ?h = _ |- _ => rewrite H
         | H : wfile ?h = _ |- _ => rewrite H
         end;
  cbn [app].

Ltac run :=
  repeat (progress (unfold bind, get, modify, ret, raise, lift, write,
                    send_header, send_response_only, flush_headers;
                    cbn beta iota zeta)
          || (rewrite log_message_eq; simp)
          || (rewrite end_headers_eq; simp)
          || (rewrite guess_type_eq; simp)
          || (progress simp)).

(** The file is found and has to be sent: the primitive's block carries
    what [guess_type] returned as its [Content-type]. *)
Lemma send_file_head_file (name : string) (ctype : pyobj) (f : file)
  (h : handler) :
  headers_buffer h = [] -> wfile h = [] ->
  guessed name = inr ctype ->
  endswith name "/" = false ->
  open_rb name = Some f ->
  not_modified (headers h) f = false ->
  exists h',
    send_file_head self name h = (h', inr (Some f))
    /\ wfile h'
       = [HeaderBlock (StatusLine 200 (reason 200)
                       :: file_headers ctype f ++ extra (path h) ++ [BlankLine])].
Proof using All.
  intros Hb Hw Hg Hs Ho Hn. unfold send_file_head.
  unfold bind at 1. rewrite guess_type_eq, Hg, Hs, Ho.
  unfold bind at 1, get at 1. cbn beta iota. rewrite Hn.
  unfold send_response, log_request. run.
  eexists. split; [reflexivity|]. simp. reflexivity.
Qed.

Lemma send_head_file (name : string) (ctype : pyobj) (f : file) (h : handler) :
  headers_buffer h = [] -> wfile h = [] ->
  resolved (path h) = Some name ->
  guessed name = inr ctype ->
  endswith name "/" = false ->
  open_rb name = Some f ->
  not_modified (headers h) f = false ->
  exists h',
    send_head self h = (h', inr (Some f))
    /\ wfile h'
       = [HeaderBlock (StatusLine 200 (reason 200)
                       :: file_headers ctype f ++ extra (path h) ++ [BlankLine])].
Proof using All.
  intros Hb Hw Hr Hg Hs Ho Hn. unfold send_head.
  unfold bind at 1, get at 1. cbn beta iota. unfold resolved in Hr.
  destruct (isdir (translate_path (path h))).
  - destruct (negb (endswith (urlsplit_path (path h)) "/")); [discriminate Hr|].
    rewrite Hr. now apply (send_file_head_file name ctype f h).
  - injection Hr as <-. now apply (send_file_head_file _ ctype f h).
Qed.

Lemma Simple_do_GET_file (name : string) (ctype : pyobj) (f : file)
  (h : handler) :
  headers_buffer h = [] -> wfile h = [] ->
  resolved (path h) = Some name ->
  guessed name = inr ctype ->
  endswith name "/" = false ->
  open_rb name = Some f ->
  not_modified (headers h) f = false ->
  exists h',
    Simple_do_GET self h = (h', inr tt)
    /\ wfile h'
       = [HeaderBlock (StatusLine 200 (reason 200)
                       :: file_headers ctype f ++ extra (path h) ++ [BlankLine]);
          Body (f_data f)].
Proof using All.
  intros Hb Hw Hr Hg Hs Ho Hn.
  destruct (send_head_file name ctype f h Hb Hw Hr Hg Hs Ho Hn) as (h' & E & Ew).
  unfold Simple_do_GET, bind. rewrite E. unfold write, modify.
  eexists. split; [reflexivity|].
  cbn [wfile set_wfile]. now rewrite Ew.
Qed.

Lemma Simple_do_HEAD_file (name : string) (ctype : pyobj) (f : file)
  (h : handler) :
  headers_buffer h = [] -> wfile h = [] ->
  resolved (path h) = Some name ->
  guessed name = inr ctype ->
  endswith name "/" = false ->
  open_rb name = Some f ->
  not_modified (headers h) f = false ->
  exists h',
    Simple_do_HEAD self h = (h', inr tt)
    /\ wfile h'
       = [HeaderBlock (StatusLine 200 (reason 200)
                       :: file_headers ctype f ++ extra (path h) ++ [BlankLine])].
Proof using All.
  intros Hb Hw Hr Hg Hs Ho Hn.
  destruct (send_head_file name ctype f h Hb Hw Hr Hg Hs Ho Hn) as (h' & E & Ew).
  unfold Simple_do_HEAD, bind. rewrite E. unfold ret.
  eexists. split; [reflexivity | exact Ew].
Qed.

End FileFacts.

Section FileAnswers.
Import Py HttpServer Policy Shape Served.
Import DevServer PwaServer.
Local Open Scope list_scope.
Context {W : World}.

Lemma do_GET_file (v : variant) (name : string) (ctype : pyobj) (f : file)
  (h : handler) :
  headers_buffer h = [] -> wfile h = [] ->
  resolved (path h) = Some name ->
  guessed v name = inr ctype ->
  endswith name "/" = false ->
  open_rb name = Some f ->
  not_modified (headers h) f = false ->
  exists h',
    Simple_do_GET (methods_of v) h = (h', inr tt)
    /\ wfile h' = [HeaderBlock (file_block v (path h) ctype f);
                   Body (f_data f)].
Proof.
  apply (Simple_do_GET_file (methods_of v) (injected v) (logged v)
           (guessed v) (end_headers_eq v) (log_message_eq v)
           (logged_command v) (logged_path v) (logged_headers v)
           (logged_buffer v) (logged_wfile v) (guess_type_eq v)).
Qed.

Lemma do_HEAD_file (v : variant) (name : string) (ctype : pyobj) (f : file)
  (h : handler) :
  headers_buffer h = [] -> wfile h = [] ->
  resolved (path h) = Some name ->
  guessed v name = inr ctype ->
  endswith name "/" = false ->
  open_rb name = Some f ->
  not_modified (headers h) f = false ->
  exists h',
    Simple_do_HEAD (methods_of v) h = (h', inr tt)
    /\ wfile h' = [HeaderBlock (file_block v (path h) ctype f)].
Proof.
  apply (Simple_do_HEAD_file (methods_of v) (injected v) (logged v)
           (guessed v) (end_headers_eq v) (log_message_eq v)
           (logged_command v) (logged_path v) (logged_headers v)
           (logged_buffer v) (logged_wfile v) (guess_type_eq v)).
Qed.

(** The answer of either variant to a [GET] or [HEAD] request that
    resolves to a file it has to send, when [guess_type] returns: the
    block of the file, closed for the path the handler holds by then, and
    for [GET] the content of the file. *)
Lemma file_response (v : variant) (r : request) (name : string)
  (ctype : pyobj) (f : file) :
  r_method r = "GET"%string \/ r_method r = "HEAD"%string ->
  resolved (effective_path v r) = Some name ->
  guessed v name = inr ctype ->
  endswith name "/" = false ->
  open_rb name = Some f ->
  not_modified (r_headers r) f = false ->
  response (cls_of v) r
  = HeaderBlock (file_block v (effective_path v r) ctype f)
    :: (if (r_method r =? "GET")%string then [Body (f_data f)] else []).
Proof.
  intros Hm Hr Hg Hs Ho Hn.
  unfold response, serve. rewrite handle_one_request_eq.
  cbn [command new_handler]. unfold lookup_do.
  destruct Hm as [Hm|Hm]; rewrite Hm in *; cbn [String.eqb Ascii.eqb Bool.eqb].
  - destruct v.
    + destruct (do_GET_file VariantA name ctype f (new_handler r))
        as (h' & E & Ew); try reflexivity; try assumption.
      cbn [cls_of do_GET CustomHTTPRequestHandler.cls].
      change CustomHTTPRequestHandler.self with (methods_of VariantA).
      rewrite E. exact Ew.
    + cbn [cls_of do_GET PWAHTTPRequestHandler.cls].
      unfold PWAHTTPRequestHandler.do_GET. unfold bind at 1, get at 1.
      cbn beta iota. cbn [path new_handler].
      unfold effective_path in *. rewrite Hm in *.
      cbn [String.eqb Ascii.eqb Bool.eqb andb] in *.
      change PWAHTTPRequestHandler.self with (methods_of VariantB).
      destruct (r_target r =? "/")%string.
      * unfold bind at 1, modify at 1. cbn beta iota.
        destruct (do_GET_file VariantB name ctype f
                    (set_path "/main.html" (new_handler r)))
          as (h' & E & Ew); try reflexivity; try assumption.
        rewrite E. exact Ew.
      * unfold bind at 1, ret at 1. cbn beta iota.
        destruct (do_GET_file VariantB name ctype f (new_handler r))
          as (h' & E & Ew); try reflexivity; try assumption.
        rewrite E. exact Ew.
  - assert (He : effective_path v r = r_target r).
    { unfold effective_path. rewrite Hm. destruct v; reflexivity. }
    rewrite He in *.
    destruct v.
    + destruct (do_HEAD_file VariantA name ctype f (new_handler r))
        as (h' & E & Ew); try reflexivity; try assumption.
      cbn [cls_of do_HEAD CustomHTTPRequestHandler.cls].
      change CustomHTTPRequestHandler.self with (methods_of VariantA).
      rewrite E. exact Ew.
    + destruct (do_HEAD_file VariantB name ctype f (new_handler r))
        as (h' & E & Ew); try reflexivity; try assumption.
      cbn [cls_of do_HEAD PWAHTTPRequestHandler.cls].
      change PWAHTTPRequestHandler.self with (methods_of VariantB).
      rewrite E. exact Ew.
Qed.

End FileAnswers.

(* ================================================================== *)
(** * The claims about the type and the root of what is served *)
(* ================================================================== *)

Section FileClaims.
Import Py HttpServer Policy Shape Served.
Import DevServer PwaServer.
Local Open Scope list_scope.

Ltac exclude H :=
  repeat match goal with
         | |- context [endswith ?p ?ext] =>
             lazymatch type of H with
             | endswith p ext = true => fail
             | _ => idtac
             end;
             let E := fresh "E" in
             let X := fresh "X" in
             destruct (endswith p ext) eqn:E;
             [ pose proof (endswith_exclusive p _ _ H E) as X;
               vm_compute in X; discriminate X
             | ]
         end.

Lemma content_types_file_block (W : World) (v : variant) (p : string)
  (ctype : pyobj) (f : file) :
  content_types (file_block v p ctype f)
  = ctype :: content_types (injected v p).
Proof.
  unfold file_block, file_headers. cbn [app].
  unfold content_types at 1. cbn [flat_map].
  change (is_content_type (Header "Server" (PStr version_string))) with false.
  change (is_content_type (Header "Date" (PStr date_time_now))) with false.
  change (is_content_type (Header "Content-type" ctype)) with true.
  change (is_content_type
            (Header "Content-Length" (PStr (str_of_int (len (f_data f))))))
    with false.
  change (is_content_type
            (Header "Last-Modified" (PStr (date_time_string (f_mtime f)))))
    with false.
  cbn [app]. rewrite flat_map_app. cbn [flat_map app].
  now rewrite app_nil_r.
Qed.

Lemma content_types_injected_B (p : string) :
  content_types (injected VariantB p) = to_values (content_type_added p).
Proof.
  unfold injected, by_extension. rewrite !content_types_app.
  destruct (content_type_added p), (cache_control VariantB p); reflexivity.
Qed.

(** C1, amended.  In Variant B a [GET] or [HEAD] request that is answered
    with a file gets one header block, in which the primitive's
    [Content-type] is what the generic lookup returns for the name of the
    file that was resolved, unchanged, whatever the extension; behind it
    and the CORS headers [end_headers] adds a second [Content-Type] with
    the table's value when the path of the handler ends in [.json], [.js]
    or [.svg], and none otherwise: there is no entry for [.ts].  The
    override of [guess_type] in Variant A is left out. *)
Theorem mime_types_as_decided
  (W : World) (r : request) (name : string) (f : file) :
  r_method r = "GET"%string \/ r_method r = "HEAD"%string ->
  resolved (effective_path VariantB r) = Some name ->
  endswith name "/" = false ->
  open_rb name = Some f ->
  not_modified (r_headers r) f = false ->
  exists ls,
    header_blocks (response (cls_of VariantB) r) = [ls]
    /\ ls = StatusLine 200 (reason 200)
            :: file_headers (generic_guess_type name) f
            ++ cors_headers
            ++ header_of "Content-Type"
                 (content_type_added (effective_path VariantB r))
            ++ header_of "Cache-Control"
                 (cache_control VariantB (effective_path VariantB r))
            ++ [BlankLine]
    /\ (endswith (effective_path VariantB r) ".json" = true ->
        content_types ls
        = [generic_guess_type name; PStr "application/json"])
    /\ (endswith (effective_path VariantB r) ".js" = true ->
        content_types ls
        = [generic_guess_type name; PStr "application/javascript"])
    /\ (endswith (effective_path VariantB r) ".svg" = true ->
        content_types ls
        = [generic_guess_type name; PStr "image/svg+xml"])
    /\ (endswith (effective_path VariantB r) ".ts" = true ->
        content_types ls = [generic_guess_type name])
    /\ (endswith (effective_path VariantB r) ".json" = false ->
        endswith (effective_path VariantB r) ".js" = false ->
        endswith (effective_path VariantB r) ".svg" = false ->
        content_types ls = [generic_guess_type name]).
Proof.
  intros Hm Hr Hs Ho Hn.
  pose proof (file_response VariantB r name (generic_guess_type name) f
                Hm Hr eq_refl Hs Ho Hn) as E.
  exists (file_block VariantB (effective_path VariantB r)
            (generic_guess_type name) f).
  split; [rewrite E; now destruct (r_method r =? "GET")%string|].
  split.
  { unfold file_block, injected, by_extension.
    now rewrite <- !app_assoc. }
  rewrite content_types_file_block, content_types_injected_B.
  generalize (effective_path VariantB r). intros p.
  unfold content_type_added.
  split; [|split; [|split; [|split]]].
  - intros H. rewrite H. reflexivity.
  - intros H. exclude H. rewrite H. reflexivity.
  - intros H. exclude H. rewrite H. reflexivity.
  - intros H. exclude H. reflexivity.
  - intros -> -> ->. reflexivity.
Qed.

Lemma mime_types_as_decided_witness :
  exists ls,
    header_blocks (response (W := Demo.world) (cls_of (W := Demo.world) VariantB)
                            (Demo.GET "/app.js")) = [ls]
    /\ content_types ls = [PStr "text/javascript"; PStr "application/javascript"].
Proof.
  destruct (mime_types_as_decided Demo.world (Demo.GET "/app.js")
              "/srv/app.js" (mkfile "console.log(1)" 1700000000))
    as (ls & E & _ & _ & Hjs & _).
  - left. reflexivity.
  - vm_compute. reflexivity.
  - vm_compute. reflexivity.
  - vm_compute. reflexivity.
  - vm_compute. reflexivity.
  - exists ls. split; [exact E|].
    rewrite Hjs by (vm_compute; reflexivity). reflexivity.
Defined.

(** C3.  The claim fails in Variant A for a request to a file that
    exists: [guess_type] raises on the [str] the library's lookup returns,
    before the status line is buffered, so no header block is written and
    no CORS header is sent.  [end_headers], which would add them, is never
    reached.  Variant B answers the same request with one block that has
    the three headers. *)
Theorem custom_file_request_gets_no_cors_headers :
  open_rb (World := Demo.world) (translate_path (W := Demo.world) "/app.js")
  = Some (mkfile "console.log(1)" 1700000000)
  /\ serve (W := Demo.world) (cls_of (W := Demo.world) VariantA)
           (Demo.GET "/app.js")
     = (new_handler (Demo.GET "/app.js"),
        inl (ValueError "too many values to unpack (expected 2)"))
  /\ response (W := Demo.world) (cls_of (W := Demo.world) VariantA)
              (Demo.GET "/app.js") = []
  /\ (forall l ls,
        In l cors_headers ->
        In ls (header_blocks (response (W := Demo.world)
                                (cls_of (W := Demo.world) VariantA)
                                (Demo.GET "/app.js"))) ->
        ~ In l ls)
  /\ header_blocks (response (W := Demo.world) (cls_of (W := Demo.world) VariantB)
                             (Demo.GET "/app.js")) = [Demo.script_block]
  /\ (forall l, In l cors_headers -> In l Demo.script_block).
Proof.
  assert (Hr : response (W := Demo.world) (cls_of (W := Demo.world) VariantA)
                        (Demo.GET "/app.js") = [])
    by (vm_compute; reflexivity).
  split; [vm_compute; reflexivity|].
  split; [vm_compute; reflexivity|].
  split; [exact Hr|].
  split; [intros l ls _ Hin; rewrite Hr in Hin; destruct Hin|].
  split; [vm_compute; reflexivity|].
  intros l Hl. unfold cors_headers in Hl. cbn [In] in Hl.
  destruct Hl as [<-|[<-|[<-|[]]]]; vm_compute; tauto.
Qed.

(** C4, as stated, fails: the claim speaks of any request for [/], and
    Variant B answers [HEAD /] with the headers of the directory listing,
    [HEAD /main.html] with those of the file. *)
Lemma root_as_main_html_counterexample :
  ~ root_as_main_html (W := Demo.world) "HEAD" [].
Proof. unfold root_as_main_html. vm_compute. discriminate. Qed.

(** C4, amended.  In Variant B the response to [GET /] is the response to
    [GET /main.html] sent with the same request headers: the same chunks
    are written, status line, headers (those chosen from the path
    included, the path being [/main.html] by then) and body, and no
    exception is raised.  When [/main.html] resolves to a file that has to
    be sent, that response is the 200 block of the file followed by its
    content.  Variant A inherits [do_GET], and the path its handler ends
    with is the request target, whatever it is. *)
Theorem root_served_as_main_html (W : World) (hs : list (string * string)) :
  response (cls_of VariantB) (mkrequest "GET" "/" hs)
  = response (cls_of VariantB) (mkrequest "GET" "/main.html" hs)
  /\ raised (cls_of VariantB) (mkrequest "GET" "/" hs) = None
  /\ raised (cls_of VariantB) (mkrequest "GET" "/main.html" hs) = None
  /\ final_path (cls_of VariantB) (mkrequest "GET" "/" hs) = "/main.html"%string
  /\ (forall name f,
        resolved "/main.html" = Some name ->
        endswith name "/" = false ->
        open_rb name = Some f ->
        not_modified hs f = false ->
        response (cls_of VariantB) (mkrequest "GET" "/" hs)
        = [HeaderBlock (StatusLine 200 (reason 200)
                        :: file_headers (generic_guess_type name) f
                        ++ cors_headers
                        ++ [Header "Cache-Control" (PStr "no-cache");
                            BlankLine]);
           Body (f_data f)])
  /\ do_GET (cls_of VariantA) = Simple_do_GET (methods_of VariantA)
  /\ (forall r, final_path (cls_of VariantA) r = r_target r).
Proof.
  split; [|split; [|split; [|split; [|split; [|split]]]]].
  - pose proof (agree_Simple_do_GET (methods_of VariantB)
                  (end_agree VariantB) (log_agree VariantB)
                  (guess_agree VariantB)
                  (set_path "/main.html" (new_handler (mkrequest "GET" "/" hs)))
                  (new_handler (mkrequest "GET" "/main.html" hs))) as [S _].
    { repeat split. }
    apply S.
  - apply raised_B_none.
  - apply raised_B_none.
  - exact (proj1 (response_shape VariantB (mkrequest "GET" "/" hs))).
  - intros name f Hr Hs Ho Hn.
    rewrite (file_response VariantB (mkrequest "GET" "/" hs) name
               (generic_guess_type name) f (or_introl eq_refl) Hr eq_refl
               Hs Ho Hn).
    reflexivity.
  - reflexivity.
  - intros r. exact (proj1 (response_shape VariantA r)).
Qed.

Lemma root_served_as_main_html_witness :
  response (W := Demo.world) (cls_of (W := Demo.world) VariantB) (Demo.GET "/")
  = [HeaderBlock Demo.root_block; Body "<html>main</html>"].
Proof.
  destruct (root_served_as_main_html Demo.world [])
    as (_ & _ & _ & _ & Hfile & _).
  unfold Demo.GET.
  rewrite (Hfile "/srv/main.html"%string
             (mkfile "<html>main</html>" 1700000000))
    by (vm_compute; reflexivity).
  vm_compute. reflexivity.
Defined.

End FileClaims.
